(** * ontor: a shallow embedding of the ontology editor's core

    The development follows [src/ontor/ontor.py], class [OntoEditor]:
    the axiom builder ([add_axioms], [_add_restr_to_def], [_dp_constraint],
    [_check_available_vals]), the reasoner orchestration ([reasoning],
    [_redirect_to_log], [_analyze_pellet_results],
    [_extract_pellet_explanation]), the three-way prompt
    ([_bool_user_interaction]), and the reading and removal of
    restrictions ([get_class_restrictions], [remove_restrictions_on_class],
    [_remove_restr_from_class_def], [_remove_nt_brackets]).

    Python values are a small tagged union, methods of the editor are
    computations in a state-and-exception monad over the editor object,
    and the two collaborators that are not part of the repository
    (the Python runtime's constructors and text functions, and the OWL
    reasoners) are interfaces. *)

From Stdlib Require Import QArith Ascii.
From stdpp Require Import gmap strings list pretty.
Close Scope Q_scope.

(** ** Python values *)

Module Py.

(** The values that occur in the input tuples of the editor. *)
Inductive pyval :=
  | PNone
  | PBool (b : bool)
  | PInt (z : Z)
  | PFloat (q : Q)
  | PStr (s : string).

(** Truth value testing, as [if v], [all], [any] and [not] apply it. *)
Definition truthy (v : pyval) : bool :=
  match v with
  | PNone => false
  | PBool b => b
  | PInt z => negb (z =? 0)%Z
  | PFloat q => negb (Qeq_bool q 0)
  | PStr s => negb (String.eqb s "")
  end.

Definition py_all (vs : list pyval) : bool := forallb truthy vs.
Definition py_any (vs : list pyval) : bool := existsb truthy vs.

(** [v in [s1, ..., sn]] for a list of string literals: only a string
    compares equal to a string. *)
Definition in_strs (v : pyval) (ss : list string) : bool :=
  match v with
  | PStr s => existsb (String.eqb s) ss
  | _ => false
  end.

(** Exceptions the modelled code can raise.  [OutOfFuel] is not a Python
    exception: it marks a recursion the model cut off. *)
Inductive exn :=
  | IndexError
  | KeyError (key : pyval)
  | TypeError
  | ValueError
  | AttributeError
  | AssertionError (msg : string)
  | UnboundLocalError (var : string)
  | EOFError
  | SystemExit (code : Z)
  | OutOfFuel.

Inductive result (A : Type) :=
  | Ok (a : A)
  | Raise (e : exn).
Arguments Ok {A} a.
Arguments Raise {A} e.

Definition rbind {A B} (r : result A) (k : A → result B) : result B :=
  match r with
  | Ok a => k a
  | Raise e => Raise e
  end.

(** [xs[i]], with Python's negative indices. *)
Definition index (xs : list pyval) (i : Z) : result pyval :=
  let n := Z.of_nat (length xs) in
  let j := if (i <? 0)%Z then (i + n)%Z else i in
  if (j <? 0)%Z then Raise IndexError
  else match xs !! Z.to_nat j with
       | Some v => Ok v
       | None => Raise IndexError
       end.

(** [xs[lo:hi]] for non-negative bounds; slicing never raises. *)
Definition slice (xs : list pyval) (lo hi : nat) : list pyval :=
  take (hi - lo) (drop lo xs).

(** [a and b] and [a or b] on conditions whose evaluation can raise:
    the right operand is evaluated only when the left one asks for it. *)
Definition and_then (a b : result bool) : result bool :=
  rbind a (λ x, if x then b else Ok false).
Definition or_else (a b : result bool) : result bool :=
  rbind a (λ x, if x then Ok true else b).
Definition not_ (a : result bool) : result bool :=
  rbind a (λ x, Ok (negb x)).

(** The exit status a process reports when it ran to completion. *)
Definition EXIT_SUCCESS : Z := 0.

End Py.
Export Py.

Infix "&&&" := and_then (at level 40, left associativity).
Infix "|||" := or_else (at level 50, left associativity).

(** What the repository takes from the Python runtime without defining
    it: the constructors of the primitive types, which coerce a value or
    raise, the text [str] gives for a value that is not a string, and
    [textwrap.indent(text, prefix)]. *)
Inductive prim :=
  | Tbool | Tfloat | Tint | Tstr | Tdate | Ttime | Tdatetime.

Class PyRuntime := {
  py_construct : prim → pyval → result pyval;
  py_str : pyval → string;
  py_indent : string → string → string;
}.

(** ** The ontology *)

(** Entities of the knowledge base. [Thing] and [Nothing] are the top and
    the bottom class of OWL; the others are named. *)
Inductive entity :=
  | Thing
  | Nothing
  | NamedClass (name : string)
  | ObjectProperty (name : string)
  | DataProperty (name : string)
  | Individual (name : string).

Global Instance entity_eq_dec : EqDecision entity.
Proof. solve_decision. Defined.
Global Instance Q_eq_dec : EqDecision Q.
Proof. solve_decision. Defined.
Global Instance pyval_eq_dec : EqDecision pyval.
Proof. solve_decision. Defined.
Global Instance prim_eq_dec : EqDecision prim.
Proof. solve_decision. Defined.

Definition is_class (e : entity) : bool :=
  match e with
  | Thing | Nothing | NamedClass _ => true
  | _ => false
  end.

Definition is_property (e : entity) : bool :=
  match e with
  | ObjectProperty _ | DataProperty _ => true
  | _ => false
  end.

(** [ConstrainedDatatype(base, min_exclusive=.., ...)] of owlready2: a
    primitive type narrowed by facets. *)
Record ConstrainedDatatype := {
  base_datatype : prim;
  min_exclusive : option pyval;
  min_inclusive : option pyval;
  max_inclusive : option pyval;
  max_exclusive : option pyval;
}.

(** What [_dp_constraint] returns when it does not return [None]. *)
Inductive dprange :=
  | Plain (t : prim)
  | Constrained (c : ConstrainedDatatype).

(** The meaning of the facets on numbers, as XML Schema defines it: a
    number is in the narrowed type when it is on the right side of every
    facet that is set.  Decimal literals are taken as rationals. *)
Definition number (v : pyval) : option Q :=
  match v with
  | PInt z => Some (inject_Z z)
  | PFloat q => Some q
  | PBool b => Some (inject_Z (if b then 1 else 0))
  | PNone | PStr _ => None
  end.

Definition Qlt_bool (x y : Q) : bool := negb (Qle_bool y x).

Definition facet (holds : Q → Q → bool) (bound : option pyval) (x : Q) : bool :=
  match bound with
  | None => true
  | Some b => match number b with
              | Some q => holds q x
              | None => false
              end
  end.

Definition admits (d : dprange) (x : Q) : bool :=
  match d with
  | Plain _ => true
  | Constrained c =>
      facet Qlt_bool (min_exclusive c) x
      && facet Qle_bool (min_inclusive c) x
      && facet (λ q x, Qle_bool x q) (max_inclusive c) x
      && facet (λ q x, Qlt_bool x q) (max_exclusive c) x
  end.

(** The property of a restriction: a property, or [Inverse(property)]. *)
Inductive propexpr :=
  | Direct (p : entity)
  | Inverse (p : entity).

(** The object [obj] a restriction is built on: a class, a datatype, a
    literal, or Python's [None]. *)
Inductive filler :=
  | FillNone
  | FillEntity (e : entity)
  | FillRange (d : dprange)
  | FillValue (v : pyval).

(** [prop.some(obj)], [prop.exactly(n, obj)], ...: the restriction kind
    is the attribute name the builder looked up. *)
Record Restriction := {
  property : propexpr;
  rtype : pyval;
  cardinality : option pyval;
  value : filler;
}.

(** Members of a class's [is_a] and [equivalent_to] lists. *)
Inductive construct :=
  | Ent (e : entity)
  | Restr (r : Restriction)
  | Not (c : construct).

Global Instance ConstrainedDatatype_eq_dec : EqDecision ConstrainedDatatype.
Proof. solve_decision. Defined.
Global Instance dprange_eq_dec : EqDecision dprange.
Proof. solve_decision. Defined.
Global Instance propexpr_eq_dec : EqDecision propexpr.
Proof. solve_decision. Defined.
Global Instance filler_eq_dec : EqDecision filler.
Proof. solve_decision. Defined.
Global Instance Restriction_eq_dec : EqDecision Restriction.
Proof. solve_decision. Defined.
Global Instance construct_eq_dec : EqDecision construct.
Proof. solve_decision. Defined.

Inductive rel := is_a | equivalent_to.

(** An ontology: the entities by name, and for each named entity its
    two axiom lists. *)
Record ontology := {
  entities : gmap string entity;
  axioms_is_a : gmap string (list construct);
  axioms_equivalent_to : gmap string (list construct);
}.

Definition empty_ontology : ontology :=
  {| entities := ∅; axioms_is_a := ∅; axioms_equivalent_to := ∅ |}.

Definition entity_name (e : entity) : option string :=
  match e with
  | Thing | Nothing => None
  | NamedClass n | ObjectProperty n | DataProperty n | Individual n => Some n
  end.

(** [onto.classes()]: the classes of the ontology. *)
Definition classes (o : ontology) : list entity :=
  filter (λ e, is_class e = true) (snd <$> map_to_list (entities o)).

(** [getattr(cls, rel)] as a list. *)
Definition axioms_of (o : ontology) (r : rel) (n : string) : list construct :=
  default [] (match r with
              | is_a => axioms_is_a o !! n
              | equivalent_to => axioms_equivalent_to o !! n
              end).

Definition set_axioms (o : ontology) (r : rel) (n : string)
    (l : list construct) : ontology :=
  match r with
  | is_a =>
      {| entities := entities o;
         axioms_is_a := <[n := l]> (axioms_is_a o);
         axioms_equivalent_to := axioms_equivalent_to o |}
  | equivalent_to =>
      {| entities := entities o;
         axioms_is_a := axioms_is_a o;
         axioms_equivalent_to := <[n := l]> (axioms_equivalent_to o) |}
  end.

(** ** The reasoners *)

(** A reasoner run on a loaded ontology either completes, leaving the
    ontology with its inferences, or raises; [exc] is [repr] of the
    exception and [tb] the text [traceback.format_exc()] gives for it. *)
Inductive outcome :=
  | Inferred (inf_onto : ontology)
  | Crashed (exc tb : string).

(** HermiT and Pellet as owlready2 runs them, and owlready2's listing of
    the classes of an ontology found equivalent to [Nothing].  Pellet
    takes the [debug] level.  A run also prints: the console of a
    reasoner is what it writes to [sys.stdout] and to [sys.stderr]. *)
Class Reasoner := {
  sync_reasoner_hermit : ontology → outcome;
  sync_reasoner_pellet : ontology → nat → outcome;
  inconsistent_classes : ontology → list entity;
  hermit_console : ontology → string * string;
  pellet_console : ontology → nat → string * string;
}.

(** ** The editor object and its monad *)

Inductive level := INFO | WARNING | ERROR.

(** What an f-string of a log call interpolates. *)
Inductive logarg :=
  | NoArg
  | ArgTuple (t : list pyval)
  | ArgEntities (es : list entity)
  | ArgText (s : string).

Record logrecord := {
  lvl : level;
  msg : string;
  arg : logarg;
}.

(** The state a method of [OntoEditor] can touch: the live ontology
    [self.onto], the ontology file behind [self.path] and
    [self.filename], the log, the console, and the reasoner runs made so
    far (backend name and the [debug] level passed to it). *)
Record editor := {
  onto : ontology;
  file : ontology;
  saves : nat;
  log : list logrecord;
  stdout : list string;
  stdin : list string;
  reasoner_runs : list (string * nat);
}.

Definition with_onto (o : ontology) (s : editor) : editor :=
  {| onto := o; file := file s; saves := saves s; log := log s;
     stdout := stdout s; stdin := stdin s; reasoner_runs := reasoner_runs s |}.

Definition with_file (f : ontology) (s : editor) : editor :=
  {| onto := onto s; file := f; saves := S (saves s); log := log s;
     stdout := stdout s; stdin := stdin s; reasoner_runs := reasoner_runs s |}.

Definition with_log (r : logrecord) (s : editor) : editor :=
  {| onto := onto s; file := file s; saves := saves s; log := log s ++ [r];
     stdout := stdout s; stdin := stdin s; reasoner_runs := reasoner_runs s |}.

Definition with_stdout (line : string) (s : editor) : editor :=
  {| onto := onto s; file := file s; saves := saves s; log := log s;
     stdout := stdout s ++ [line]; stdin := stdin s;
     reasoner_runs := reasoner_runs s |}.

Definition with_stdin (lines : list string) (s : editor) : editor :=
  {| onto := onto s; file := file s; saves := saves s; log := log s;
     stdout := stdout s; stdin := lines; reasoner_runs := reasoner_runs s |}.

Definition with_run (backend : string) (debug : nat) (s : editor) : editor :=
  {| onto := onto s; file := file s; saves := saves s; log := log s;
     stdout := stdout s; stdin := stdin s;
     reasoner_runs := reasoner_runs s ++ [(backend, debug)] |}.

(** A method: it may change the editor and it returns or raises.  A
    raise keeps the changes made before it, as in Python. *)
Definition M (A : Type) : Type := editor → result A * editor.

Definition ret {A} (a : A) : M A := λ s, (Ok a, s).
Definition raise {A} (e : exn) : M A := λ s, (Raise e, s).
Definition lift {A} (r : result A) : M A := λ s, (r, s).
Definition bind {A B} (m : M A) (k : A → M B) : M B :=
  λ s, match m s with
       | (Ok a, s') => k a s'
       | (Raise e, s') => (Raise e, s')
       end.

Global Instance M_ret : MRet M := @ret.
Global Instance M_bind : MBind M := λ A B k m, bind m k.

Definition get_onto : M ontology := λ s, (Ok (onto s), s).
Definition put_onto (o : ontology) : M unit := λ s, (Ok tt, with_onto o s).
Definition logger (l : level) (m : string) (a : logarg) : M unit :=
  λ s, (Ok tt, with_log {| lvl := l; msg := m; arg := a |} s).
Definition print (line : string) : M unit := λ s, (Ok tt, with_stdout line s).

(** [self.onto.save(file = self.filename)] *)
Definition save_onto : M unit := λ s, (Ok tt, with_file (onto s) s).

(** [input()]: the next line of the console, [EOFError] at its end. *)
Definition input : M string :=
  λ s, match stdin s with
       | [] => (Raise EOFError, s)
       | line :: rest => (Ok line, with_stdin rest s)
       end.

(** ** Text *)

Module Str.

Definition newline : ascii := ascii_of_nat 10.
Definition nl : string := String newline "".

(** [str.isspace] on the characters below 128. *)
Definition is_space (c : ascii) : bool :=
  let n := nat_of_ascii c in
  ((9 <=? n) && (n <=? 13)) || ((28 <=? n) && (n <=? 32)).

Fixpoint strip_prefix (p s : string) : option string :=
  match p, s with
  | EmptyString, _ => Some s
  | String a p', String b s' =>
      if Ascii.eqb a b then strip_prefix p' s' else None
  | String _ _, EmptyString => None
  end.

(** The lazy group [(.*?)] in front of a literal: the shortest text after
    which [stop] follows, if [stop] occurs at all. *)
Fixpoint lazy_until (stop s : string) : option string :=
  match strip_prefix stop s with
  | Some _ => Some EmptyString
  | None =>
      match s with
      | EmptyString => None
      | String c s' => String c <$> lazy_until stop s'
      end
  end.

(** [re.findall] for a pattern [marker(.*?)stop] with [re.DOTALL], both
    literals non-empty: the groups of the matches, found from left to
    right without overlap.  [skip] counts the characters still covered
    by the last match. *)
Fixpoint findall_between (marker stop : string) (skip : nat) (s : string)
    : list string :=
  match s with
  | EmptyString => []
  | String _ s' =>
      match skip with
      | S k => findall_between marker stop k s'
      | O =>
          match strip_prefix marker s ≫= lazy_until stop with
          | Some g =>
              g :: findall_between marker stop
                     (String.length marker + String.length g
                      + String.length stop - 1) s'
          | None => findall_between marker stop 0 s'
          end
      end
  end.

(** [s.split(sep)] for a one-character separator. *)
Fixpoint split_on (sep : ascii) (s : string) : list string :=
  match s with
  | EmptyString => [EmptyString]
  | String c s' =>
      if Ascii.eqb c sep then EmptyString :: split_on sep s'
      else match split_on sep s' with
           | w :: ws => String c w :: ws
           | [] => [String c EmptyString]
           end
  end.

(** [s[n:]] *)
Fixpoint drop_chars (n : nat) (s : string) : string :=
  match n, s with
  | S k, String _ s' => drop_chars k s'
  | _, _ => s
  end.

(** [s.split()]: the maximal runs of characters that are not white
    space. *)
Fixpoint split_ws (s : string) : list string :=
  match s with
  | EmptyString => []
  | String c s' =>
      if is_space c then split_ws s'
      else match s' with
           | EmptyString => [String c EmptyString]
           | String d _ =>
               if is_space d then String c EmptyString :: split_ws s'
               else match split_ws s' with
                    | w :: ws => String c w :: ws
                    | [] => [String c EmptyString]
                    end
           end
  end.

(** [sep.join(parts)] *)
Fixpoint join (sep : string) (parts : list string) : string :=
  match parts with
  | [] => EmptyString
  | [x] => x
  | x :: rest => x +:+ sep +:+ join sep rest
  end.

(** [s.replace(c, '')] for a character [c] *)
Fixpoint remove_char (c : ascii) (s : string) : string :=
  match s with
  | EmptyString => EmptyString
  | String a s' =>
      if Ascii.eqb a c then remove_char c s' else String a (remove_char c s')
  end.


End Str.

(** ** The axiom builder *)

Module OntoEditor.

Section Editor.

Context `{RT : PyRuntime} `{RS : Reasoner}.

(** The class attribute [_dp_range_types]. *)
Definition _dp_range_types : gmap string prim :=
  list_to_map
    [("boolean", Tbool); ("float", Tfloat); ("integer", Tint);
     ("string", Tstr); ("date", Tdate); ("time", Ttime);
     ("datetime", Tdatetime)].

(** [self._dp_range_types[v]]: only a string can equal a key. *)
Definition range_type (v : pyval) : result prim :=
  match v with
  | PStr s =>
      match _dp_range_types !! s with
      | Some t => Ok t
      | None => Raise (KeyError v)
      end
  | _ => Raise (KeyError v)
  end.

(** [v in list(self._dp_range_types.keys())] *)
Definition is_range_key (v : pyval) : bool :=
  match v with
  | PStr s => bool_decide (s ∈ (map_to_list _dp_range_types).*1)
  | _ => false
  end.

(** [[values[i] for i in idxs]] for indices known to be in range. *)
Definition at_indices (values : list pyval) (idxs : list nat) : list pyval :=
  omap (λ i, values !! i) idxs.

Definition _check_available_vals (values : list pyval)
    (expected_values : list nat) : result bool :=
  let indices := seq 0 (length values) in
  if forallb (λ x, bool_decide (x ∈ indices)) expected_values then
    let others := filter (λ e, e ∉ expected_values) indices in
    Ok (py_all (at_indices values expected_values)
        && negb (py_any (at_indices values others)))
  else Raise (AssertionError "invalid expected_values").

(** [ConstrainedDatatype(t, min_exclusive=.., min_inclusive=..,
    max_inclusive=.., max_exclusive=..)]; an absent keyword is [None]. *)
Definition facets (t : prim) (minex minin maxin maxex : option pyval) : dprange :=
  Constrained {| base_datatype := t; min_exclusive := minex;
                 min_inclusive := minin; max_inclusive := maxin;
                 max_exclusive := maxex |}.

(** The ten index patterns [_dp_constraint] tries, in its order. *)
Definition dp_patterns : list (list nat) :=
  [[0]; [0;3]; [0;1;4]; [0;1;5]; [0;2;4]; [0;2;5]; [0;1]; [0;2]; [0;4]; [0;5]]%nat.

Definition _dp_constraint (dpres : list pyval) : M (option dprange) :=
  let typ : M prim := lift (rbind (index dpres 0) range_type) in
  let arg (i : nat) : option pyval := dpres !! i in
  d0 ← lift (index dpres 0);
  (if is_range_key (d0 : pyval) then ret tt
   else logger WARNING "unexpected dp range: " (ArgTuple dpres));;
  c ← lift (_check_available_vals dpres [0]%nat);
  if (c : bool) then t ← typ; ret (Some (Plain t)) else
  c ← lift (_check_available_vals dpres [0;3]%nat);
  if (c : bool) then t ← typ; ret (Some (facets t None (arg 3) (arg 3) None)) else
  c ← lift (_check_available_vals dpres [0;1;4]%nat);
  if (c : bool) then t ← typ; ret (Some (facets t (arg 1) None (arg 4) None)) else
  c ← lift (_check_available_vals dpres [0;1;5]%nat);
  if (c : bool) then t ← typ; ret (Some (facets t (arg 1) None None (arg 5))) else
  c ← lift (_check_available_vals dpres [0;2;4]%nat);
  if (c : bool) then t ← typ; ret (Some (facets t None (arg 2) (arg 4) None)) else
  c ← lift (_check_available_vals dpres [0;2;5]%nat);
  if (c : bool) then t ← typ; ret (Some (facets t None (arg 2) None (arg 5))) else
  c ← lift (_check_available_vals dpres [0;1]%nat);
  if (c : bool) then t ← typ; ret (Some (facets t (arg 1) None None None)) else
  c ← lift (_check_available_vals dpres [0;2]%nat);
  if (c : bool) then t ← typ; ret (Some (facets t None (arg 2) None None)) else
  c ← lift (_check_available_vals dpres [0;4]%nat);
  if (c : bool) then t ← typ; ret (Some (facets t None None (arg 4) None)) else
  c ← lift (_check_available_vals dpres [0;5]%nat);
  if (c : bool) then t ← typ; ret (Some (facets t None None None (arg 5))) else
  logger WARNING "unexpected dp range restriction: " (ArgTuple dpres);;
  ret None.

(** [self.onto[name]]: the entity of that name, or [None]. *)
Definition onto_lookup (o : ontology) (name : pyval) : option entity :=
  entities o !! (match name with PStr s => s | v => py_str v end).

Definition lookup (name : pyval) : M (option entity) :=
  o ← get_onto; ret (onto_lookup o name).

(** A reference to one of the list objects [cls.is_a] and
    [cls.equivalent_to], by the name of the class: appending through the
    reference changes the class, as it does in Python. *)
Definition axlist : Type := string * rel.

Definition append (l : axlist) (c : construct) : M unit :=
  o ← get_onto;
  put_onto (set_axioms o l.2 l.1 (axioms_of o l.2 l.1 ++ [c])).

(** [types.new_class(name, (base,))] inside [with self.onto], a call
    into owlready2: the entity of that name if the ontology has one, with
    the base added to its [is_a] unless it is there; otherwise a new
    entity of the base's kind with [is_a = [base]].  The result is the
    name under which the ontology holds it. *)
Definition new_class (name : pyval) (base : option entity) : M string :=
  match name, base with
  | PStr n, Some b =>
      let kind := match b with
                  | Thing | Nothing | NamedClass _ => Some (NamedClass n)
                  | ObjectProperty _ => Some (ObjectProperty n)
                  | DataProperty _ => Some (DataProperty n)
                  | Individual _ => None
                  end in
      match kind with
      | None => raise TypeError
      | Some fresh =>
          o ← get_onto;
          match entities o !! n with
          | Some _ =>
              (if bool_decide (Ent b ∈ axioms_of o is_a n) then ret tt
               else append (n, is_a) (Ent b));;
              ret n
          | None =>
              put_onto
                (set_axioms
                   {| entities := <[n := fresh]> (entities o);
                      axioms_is_a := axioms_is_a o;
                      axioms_equivalent_to := axioms_equivalent_to o |}
                   is_a n [Ent b]);;
              ret n
          end
      end
  | _, _ => raise TypeError
  end.

(** The list [resinfo = [prop, inverted, p_type, cardin, negated]]. *)
Record resinfo := {
  prop : option entity;
  inverted : pyval;
  p_type : pyval;
  cardin : pyval;
  negated : pyval;
}.

(** [getattr(p, kind)] and [Inverse(p)] need a property object; on
    [None] and on any other entity they raise. *)
Definition as_property (p : option entity) : result entity :=
  match p with
  | Some e => if is_property e then Ok e else Raise AttributeError
  | None => Raise AttributeError
  end.

Definition any_entity (opinfo : list (option entity)) : bool :=
  existsb (λ e, bool_decide (is_Some e)) opinfo.

Definition _add_restr_to_def (current_axioms : axlist) (resinfo : resinfo)
    (opinfo : list (option entity)) (dpinfo axiom : list pyval) : M unit :=
  let kind := p_type resinfo in
  (* from [if resinfo[1]: resinfo[0] = Inverse(resinfo[0])] to the end *)
  let build (obj : filler) : M unit :=
    inv ← (if truthy (inverted resinfo)
           then p ← lift (as_property (prop resinfo)); ret (Some (Inverse p))
           else ret None);
    let getattr_ : M propexpr :=
      match inv : option propexpr with
      | Some pe => ret pe
      | None => p ← lift (as_property (prop resinfo)); ret (Direct p)
      end in
    let finish (n : option pyval) : M unit :=
      pe ← getattr_;
      let res := Restr {| property := pe; rtype := kind;
                          cardinality := n; value := obj |} in
      append current_axioms (if truthy (negated resinfo) then Not res else res) in
    if in_strs kind ["some"; "only"; "value"] && negb (truthy (cardin resinfo))
    then finish None
    else if in_strs kind ["exactly"; "max"; "min"] && truthy (cardin resinfo)
    then finish (Some (cardin resinfo))
    else logger WARNING "unexpected cardinality definition: " (ArgTuple axiom) in
  if any_entity opinfo && negb (py_any dpinfo) then
    match opinfo !! 0%nat with
    | Some (Some e) => build (FillEntity e)
    | Some None => build FillNone
    | None => raise IndexError
    end
  else if negb (any_entity opinfo) && py_any dpinfo then
    if truthy (inverted resinfo) then
      logger WARNING "invalid dp constraint - dp may not be inverted: "
        (ArgTuple axiom)
    else
      obj ← (if in_strs kind ["some"; "only"] then
               d ← _dp_constraint dpinfo;
               ret (match d : option dprange with
                    | Some d => FillRange d
                    | None => FillNone
                    end)
             else
               c ← lift (Ok (in_strs kind ["value"])
                         &&& rbind (index dpinfo 3) (λ v, Ok (truthy v)));
               if (c : bool) then
                 t ← lift (rbind (index dpinfo 0) range_type);
                 x ← lift (index dpinfo 3);
                 v ← lift (py_construct t x);
                 ret (FillValue v)
               else ret FillNone);
      match obj : filler with
      | FillNone => logger WARNING "invalid dp constraint: " (ArgTuple axiom)
      | _ =>
          if in_strs kind ["exactly"; "max"; "min"] then
            logger WARNING
              "qualified cardinality restrictions currently not supported for DPs: {axiom}"
              NoArg
          else build obj
      end
  else
    logger WARNING "restriction includes both op and dp: " (ArgTuple axiom).

(** One pass through the body of the [for] loop of [add_axioms].  The
    local variable [my_class] is [None] while it is unbound; the pass
    returns its binding for the next one. *)
Definition add_axioms_body (my_class : option string) (axiom : list pyval)
    : M (option string) :=
  (let at_ (i : Z) : M pyval := lift (index axiom i) in
  let test (i : Z) : result bool := rbind (index axiom i) (λ v, Ok (truthy v)) in
  let all_at (idxs : list Z) : result bool :=
    rbind (foldr (λ i acc, rbind (index axiom i)
                             (λ v, rbind acc (λ vs, Ok (v :: vs))))
                 (Ok []) idxs)
          (λ vs, Ok (py_all vs)) in
  c ← lift (test 0 &&& test 1 &&& not_ (test (-1)));
  my_class ←
    (if (c : bool) then
       a0 ← at_ 0; a1 ← at_ 1; base ← lookup a1;
       n ← new_class a0 base; ret (Some n)
     else
       c ← lift (test 0 &&& test 1 &&& test (-1));
       if (c : bool) then
         a0 ← at_ 0; n ← new_class a0 (Some Thing);
         a1 ← at_ 1; e ← lookup a1;
         match e : option entity with
         | Some e => append (n, equivalent_to) (Ent e)
         | None => raise AttributeError
         end;;
         ret (Some n)
       else
         c ← lift (test 0 &&& not_ (test 1));
         if (c : bool) then
           a0 ← at_ 0; n ← new_class a0 (Some Thing); ret (Some n)
         else
           logger WARNING "no class defined: " (ArgTuple axiom);;
           ret my_class);
  c ← lift (not_ (test 2) &&& not_ (test 4) &&& not_ (test 5) &&& not_ (test 6));
  if (c : bool) then ret my_class
  else
    c ← lift (all_at [2; 4; 6] ||| all_at [2; 4; 7]);
    if (c : bool) then
      eq ← lift (test (-1));
      cls ← match my_class : option string with
            | Some n => ret n
            | None => raise (UnboundLocalError "my_class")
            end;
      let current_axioms : axlist :=
        (cls, if (eq : bool) then equivalent_to else is_a) in
      a2 ← at_ 2; p ← lookup a2;
      a3 ← at_ 3; a4 ← at_ 4; a5 ← at_ 5; a13 ← at_ 13;
      a6 ← at_ 6; f ← lookup a6;
      _add_restr_to_def current_axioms
        {| prop := p; inverted := a3; p_type := a4; cardin := a5;
           negated := a13 |}
        [f] (slice axiom 7 13) axiom;;
      ret my_class
    else
      logger WARNING "unexpected input: " (ArgTuple axiom);;
      ret my_class)%Z.

Fixpoint add_axioms_loop (my_class : option string)
    (axiom_tuples : list (list pyval)) : M unit :=
  match axiom_tuples with
  | [] => ret tt
  | axiom :: rest =>
      my_class ← add_axioms_body my_class axiom;
      add_axioms_loop my_class rest
  end.

Definition add_axioms (axiom_tuples : list (list pyval)) : M unit :=
  add_axioms_loop None axiom_tuples;;
  save_onto.

(** ** The reasoner orchestration *)

(** [World().get_ontology(self.path).load()]: a fresh copy of what the
    file holds.  The file exists once the editor is constructed. *)
Definition load_file : M ontology := λ s, (Ok (file s), s).

(** [self._reload_from_file()], for a file that loads. *)
Definition _reload_from_file : M unit :=
  f ← load_file;
  put_onto f;;
  logger INFO "successfully reloaded ontology from file" NoArg.

Definition _check_reasoner (reasoner : string) : M unit :=
  if bool_decide (reasoner ∈ ["hermit"; "pellet"]) then ret tt
  else logger WARNING "unexpected reasoner: " (ArgText reasoner).

(** [list.remove(x)]: the list without the first occurrence of [x]. *)
Fixpoint list_remove (x : entity) (l : list entity) : list entity :=
  match l with
  | [] => []
  | y :: l' => if decide (x = y) then l' else y :: list_remove x l'
  end.

Definition explanation_marker : string := "Explanation(s): " +:+ Str.nl.
Definition blank_line : string := Str.nl +:+ Str.nl.

(** [set(...)] keeps one copy of each element; the order in which Python
    iterates over a set is not specified, the model takes the order of
    [remove_dups]. *)
Definition _extract_pellet_explanation (pellet_traceback : string)
    : list string * list (list (list string)) :=
  let res :=
    remove_dups
      (Str.findall_between explanation_marker blank_line 0 pellet_traceback) in
  let axioms :=
    match res with
    | [] => []
    | _ =>
        let expls :=
          (λ expl, Str.drop_chars 5 <$> Str.split_on Str.newline expl) <$> res in
        (λ block, Str.split_ws <$> block) <$> expls
    end in
  (res, axioms).

(** [[self.onto[ax[0]] for ax in axs if self.onto[ax[0]] in
    self.onto.classes()]]: [ax[0]] raises on a line without a token. *)
Fixpoint named_classes (o : ontology) (axs : list (list string))
    : result (list entity) :=
  match axs with
  | [] => Ok []
  | ax :: rest =>
      match ax with
      | [] => Raise IndexError
      | tok :: _ =>
          rbind (named_classes o rest)
            (λ found,
               Ok (match onto_lookup o (PStr tok) with
                   | Some e =>
                       if bool_decide (e ∈ classes o) then e :: found
                       else found
                   | None => found
                   end))
      end
  end.

(** [_indent_log(info)] *)
Definition _indent_log (info : string) : string := py_indent info ">   ".

Definition _analyze_pellet_results (exc tb : string) : M (list entity) :=
  logger ERROR "" (ArgText exc);;
  let expl := _extract_pellet_explanation tb in
  inconsistent_classes ←
    match expl.1 with
    | _ :: _ =>
        print "Pellet provides the following explanation(s):";;
        print (Str.join Str.nl expl.1);;
        o ← get_onto;
        lift (named_classes o (concat expl.2))
    | [] =>
        print "There was a more complex issue, check log for traceback";;
        logger ERROR "" (ArgText (_indent_log tb));;
        ret []
    end;
  ret (remove_dups inconsistent_classes).

(** The way out of [with _redirect_to_log()], taken whether the block
    completed or raised: what the block printed went to two buffers
    instead of the console, and each buffer that is not empty is logged. *)
Definition _redirect_to_log (captured : string * string) : M unit :=
  (if String.eqb captured.1 "" then ret tt
   else logger INFO ("reasoner output redirect: " +:+ Str.nl)
          (ArgText (_indent_log captured.1)));;
  (if String.eqb captured.2 "" then ret tt
   else logger INFO ("reasoner errors redirect: " +:+ Str.nl)
          (ArgText (_indent_log captured.2))).

(** The body of the [try] block: the reasoner chosen by name runs on
    the loaded copy, its console redirected to the log; with any other
    name none runs and nothing is captured. *)
Definition run_reasoner (reasoner : string) (debug : bool)
    (inf_onto : ontology) : M outcome :=
  if String.eqb reasoner "hermit" then
    (λ s, (Ok tt, with_run "hermit" 1 s));;
    _redirect_to_log (hermit_console inf_onto);;
    ret (sync_reasoner_hermit inf_onto)
  else if String.eqb reasoner "pellet" then
    let d := (if debug then 1 else 0) + 1 in
    (λ s, (Ok tt, with_run "pellet" d s));;
    _redirect_to_log (pellet_console inf_onto d);;
    ret (sync_reasoner_pellet inf_onto d)
  else ret (Inferred inf_onto).

(** [reasoning] calls itself in its [except] branch; [fuel] bounds the
    depth of the calls. *)
Fixpoint reasoning (fuel : nat) (reasoner : string) (save debug : bool)
    : M (list entity) :=
  match fuel with
  | O => raise OutOfFuel
  | S fuel =>
      _check_reasoner reasoner;;
      inf_onto ← load_file;
      r ← run_reasoner reasoner debug inf_onto;
      '(inf_onto, inconsistent) ←
        match r : outcome with
        | Inferred inf => ret (inf, inconsistent_classes inf)
        | Crashed exc tb =>
            found ← (if String.eqb reasoner "pellet" && debug
                     then _analyze_pellet_results exc tb
                     else reasoning fuel "pellet" false true);
            ret (inf_onto, found)
        end;
      match inconsistent : list entity with
      | _ :: _ =>
          logger WARNING "the ontology is inconsistent: "
            (ArgEntities inconsistent);;
          ret (if bool_decide (Nothing ∈ inconsistent)
               then list_remove Nothing inconsistent
               else inconsistent)
      | [] =>
          (if save then
             (λ s, (Ok tt, with_file inf_onto s));;
             _reload_from_file
           else ret tt);;
          ret inconsistent
      end
  end.

(** ** The prompt *)

Definition choices : list string := ["y"; "n"; "q"].

(** The [while] loop of the prompt, by recursion on the lines the
    console still holds. *)
Fixpoint ask_again (lines : list string) (user_input : string) : M string :=
  if bool_decide (user_input ∈ choices) then ret user_input
  else
    print "invalid choice, please try again";;
    match lines with
    | [] => raise EOFError
    | line :: lines' =>
        (λ s, (Ok tt, with_stdin lines' s));;
        ask_again lines' line
    end.

Definition _bool_user_interaction (question : string) (info : option string)
    : M pyval :=
  match info with
  | Some i => if String.eqb i "" then ret tt else print i
  | None => ret tt
  end;;
  print (question +:+ " [y(es), n(o), q(uit)]");;
  user_input ← input;
  lines ← (λ s, (Ok (stdin s), s));
  user_input ← ask_again lines user_input;
  if bool_decide (user_input ∈ ["y"; "n"]) then
    ret (PBool (String.eqb user_input "y"))
  else if String.eqb user_input "q" then
    print "quitting - process needs to be restarted";;
    raise (SystemExit 0)
  else ret PNone.

(** ** Reading and removing restrictions *)

(** [str(v)] *)
Definition text_of (v : pyval) : string :=
  match v with PStr s => s | v => py_str v end.

(** [isinstance(c, Restriction)]: a [Not] is a construct of its own
    kind. *)
Definition is_restriction (c : construct) : bool :=
  match c with
  | Restr _ => true
  | Ent _ | Not _ => false
  end.

(** [l.remove(x)] on an axiom list: the list without its first member
    equal to [x], [ValueError] when it has none. *)
Fixpoint remove_first (x : construct) (l : list construct)
    : result (list construct) :=
  match l with
  | [] => Raise ValueError
  | y :: l' =>
      if decide (y = x) then Ok l'
      else rbind (remove_first x l') (λ kept, Ok (y :: kept))
  end.

(** [not prop or prop and r.property == prop]: an entity is truthy, and
    the property of a restriction equals [prop] when it is that property
    itself, not its inverse. *)
Definition on_property (prop : option entity) (r : construct) : bool :=
  match prop with
  | None => true
  | Some p =>
      match r with
      | Restr r => bool_decide (property r = Direct p)
      | Ent _ | Not _ => false
      end
  end.

(** The [for] loop of [_remove_restr_from_class_def] over the
    restrictions found before it starts. *)
Fixpoint remove_restr_loop (prop : option entity) (rs : list construct)
    (cls_restrictions : list construct) : result (list construct) :=
  match rs with
  | [] => Ok cls_restrictions
  | r :: rs' =>
      if on_property prop r then
        rbind (remove_first r cls_restrictions) (remove_restr_loop prop rs')
      else remove_restr_loop prop rs' cls_restrictions
  end.

(** The list is changed in place; the model returns what it holds
    afterwards. *)
Definition _remove_restr_from_class_def (cls_restrictions : list construct)
    (prop : option entity) : result (list construct) :=
  remove_restr_loop prop
    (filter (λ r, is_restriction r = true) cls_restrictions)
    cls_restrictions.

(** [self._remove_restr_from_class_def(lst, prop)] for the list object
    behind a reference. *)
Definition remove_restr_in (l : axlist) (prop : option entity) : M unit :=
  o ← get_onto;
  kept ← lift (_remove_restr_from_class_def (axioms_of o l.2 l.1) prop);
  put_onto (set_axioms o l.2 l.1 kept).

(** [self.onto[class_name].is_a] and [.equivalent_to]: a reference to
    the list, [AttributeError] on [None]. *)
Definition axioms_ref (class_name : pyval) (r : rel) : M axlist :=
  e ← lookup class_name;
  match e : option entity with
  | Some _ => ret (text_of class_name, r)
  | None => raise AttributeError
  end.

Definition remove_restrictions_on_class (class_name : pyval) : M unit :=
  l1 ← axioms_ref class_name is_a;
  l2 ← axioms_ref class_name equivalent_to;
  remove_restr_in l1 None;;
  remove_restr_in l2 None;;
  save_onto.

Definition get_class_restrictions (class_name res_only res_type : pyval)
    : M (list construct) :=
  elems ←
    (if in_strs res_type ["is_a"] then
       l ← axioms_ref class_name is_a;
       o ← get_onto; ret (axioms_of o l.2 l.1)
     else if in_strs res_type ["equivalent_to"] then
       l ← axioms_ref class_name equivalent_to;
       o ← get_onto; ret (axioms_of o l.2 l.1)
     else
       logger WARNING "unexpected res_type: " (ArgText (text_of res_type));;
       raise (SystemExit 1));
  ret (if truthy res_only
       then filter (λ x, is_restriction x = true) elems
       else elems).

Definition _remove_nt_brackets (triple : list string) : list string :=
  (λ s, Str.remove_char ">" (Str.remove_char "<" s)) <$> triple.

End Editor.

End OntoEditor.

Import OntoEditor.

(** ** Sample objects for the examples *)

(** [textwrap.indent] on a text whose lines end in a line feed: the
    prefix goes in front of every line that is not blank. *)
Definition indent_lines (text prefix : string) : string :=
  Str.join Str.nl
    ((λ line, match Str.split_ws line with
              | [] => line
              | _ => prefix +:+ line
              end) <$> Str.split_on Str.newline text).

(** A runtime whose constructors take a value as it is. *)
Definition sample_runtime : PyRuntime :=
  {| py_construct := λ _ v, Ok v; py_str := λ _, "None";
     py_indent := indent_lines |}.

(** A reasoner that finds every ontology consistent and prints
    nothing. *)
Definition quiet_reasoner : Reasoner :=
  {| sync_reasoner_hermit := λ o, Inferred o;
     sync_reasoner_pellet := λ o _, Inferred o;
     inconsistent_classes := λ _, [];
     hermit_console := λ _, ("", "");
     pellet_console := λ _ _, ("", "") |}.

(** Reasoners that crash, Pellet with the given traceback and after
    printing a line on each stream. *)
Definition crashing_reasoner (tb : string) : Reasoner :=
  {| sync_reasoner_hermit := λ _, Crashed "OwlReadyJavaError" "";
     sync_reasoner_pellet := λ _ _, Crashed "OwlReadyInconsistentOntologyError" tb;
     inconsistent_classes := λ _, [];
     hermit_console := λ _, ("", "");
     pellet_console := λ _ _, ("* Owlready2 * Running Pellet...",
                               "java: ontology is inconsistent") |}.

(** A reasoner that completes and lists the given classes as
    inconsistent. *)
Definition finding_reasoner (found : list entity) : Reasoner :=
  {| sync_reasoner_hermit := λ o, Inferred o;
     sync_reasoner_pellet := λ o _, Inferred o;
     inconsistent_classes := λ _, found;
     hermit_console := λ _, ("", "");
     pellet_console := λ _ _, ("", "") |}.

Definition vehicles : ontology :=
  {| entities := <["Foo" := NamedClass "Foo"]>
                   (<["Bar" := NamedClass "Bar"]>
                      (<["hasPart" := ObjectProperty "hasPart"]> ∅));
     axioms_is_a := <["Foo" := [Ent Thing]]> (<["Bar" := [Ent Thing]]> ∅);
     axioms_equivalent_to := ∅ |}.

Definition fresh_editor (o : ontology) : editor :=
  {| onto := o; file := o; saves := 0; log := []; stdout := [];
     stdin := []; reasoner_runs := [] |}.

(** ** Vocabulary of the statements *)

(** *** The datatype constraint resolver *)

(** Whether the populated fields of [dpres] are exactly those of a
    pattern. *)
Definition fits (dpres : list pyval) (pattern : list nat) : bool :=
  match _check_available_vals dpres pattern with
  | Ok b => b
  | Raise _ => false
  end.

Definition warned (m : string) (t : list pyval) (st : editor) : editor :=
  with_log {| lvl := WARNING; msg := m; arg := ArgTuple t |} st.

Definition same_indices (p q : list nat) : bool :=
  forallb (λ i, bool_decide (i ∈ q)) p && forallb (λ i, bool_decide (i ∈ p)) q.

(** *** Batches of axioms *)

(** A spec without a class whose property, kind and object filler are
    populated. *)
Definition classless_spec : list pyval :=
  [PNone; PNone; PStr "hasPart"; PNone; PStr "some"; PNone; PStr "Wheel";
   PNone; PNone; PNone; PNone; PNone; PNone; PNone; PNone].


(** *** The prompt *)

Definition invalid_line : string := "invalid choice, please try again".

Definition quit_line : string := "quitting - process needs to be restarted".

(** What the prompt prints before it reads. *)
Definition banner (question : string) (info : option string) : list string :=
  match info with
  | Some i => if String.eqb i "" then [] else [i]
  | None => []
  end ++ [question +:+ " [y(es), n(o), q(uit)]"].

(** What the prompt does with an accepted line. *)
Definition verdict (choice : string) : result pyval :=
  if String.eqb choice "q" then Raise (SystemExit 0)
  else Ok (PBool (String.eqb choice "y")).

(** *** The reasoner orchestration *)

(** The blocks the pattern of [_extract_pellet_explanation] finds. *)
Definition blocks (tb : string) : list string :=
  Str.findall_between explanation_marker blank_line 0 tb.

(** What a method leaves alone: [keeps R m] when every run of [m] takes
    a state to an [R]-related one, whether it returns or raises. *)
Definition keeps {A} (R : relation editor) (m : M A) : Prop :=
  ∀ s, R s (m s).2.

(** The ontology in memory and on disk. *)
Definition same_store : relation editor :=
  λ s s', onto s' = onto s ∧ file s' = file s ∧ saves s' = saves s.

Definition same_runs : relation editor :=
  λ s s', reasoner_runs s' = reasoner_runs s.

Definition same_console : relation editor :=
  λ s s', stdout s' = stdout s ∧ stdin s' = stdin s.

(** The log grew by records of level [INFO] only. *)
Definition logged_info : relation editor :=
  λ s s', ∃ infos, log s' = log s ++ infos ∧ Forall (λ r, lvl r = INFO) infos.

(** [if Nothing in l: l.remove(Nothing)] *)
Definition without_Nothing (l : list entity) : list entity :=
  if bool_decide (Nothing ∈ l) then list_remove Nothing l else l.

(** Everything but the log. *)
Definition log_only : relation editor :=
  λ s s', onto s' = onto s ∧ file s' = file s ∧ saves s' = saves s
          ∧ stdout s' = stdout s ∧ stdin s' = stdin s
          ∧ reasoner_runs s' = reasoner_runs s.

(** The file and the number of times it was written. *)
Definition same_disk : relation editor :=
  λ s s', file s' = file s ∧ saves s' = saves s.


Definition complex_issue_line : string :=
  "There was a more complex issue, check log for traceback".

Section ReasoningVocabulary.

Context `{RT : PyRuntime} `{RS : Reasoner}.

(** The last statements of [reasoning], after the [with] block. *)
Definition conclude (save : bool) (inf_onto : ontology)
    (inconsistent : list entity) : M (list entity) :=
  match inconsistent with
  | _ :: _ =>
      logger WARNING "the ontology is inconsistent: " (ArgEntities inconsistent);;
      ret (if bool_decide (Nothing ∈ inconsistent)
           then list_remove Nothing inconsistent
           else inconsistent)
  | [] =>
      (if save then
         (λ s, (Ok tt, with_file inf_onto s));;
         _reload_from_file
       else ret tt);;
      ret inconsistent
  end.

(** The [except] branch of [reasoning]. *)
Definition handle_crash (fuel : nat) (reasoner : string) (debug : bool)
    (exc tb : string) : M (list entity) :=
  if String.eqb reasoner "pellet" && debug
  then _analyze_pellet_results exc tb
  else reasoning fuel "pellet" false true.

Definition checked (reasoner : string) (st : editor) : editor :=
  (_check_reasoner reasoner st).2.

(** The state the [try] block of [reasoning] leaves. *)
Definition ran (reasoner : string) (debug : bool) (f : ontology)
    (st : editor) : editor :=
  (run_reasoner reasoner debug f st).2.

(** The entity references of an explanation: the first token of each
    line of each block, the indent of five characters taken off. *)
Definition references (tb : string) : list (list string) :=
  concat (_extract_pellet_explanation tb).2.

End ReasoningVocabulary.

Definition reloaded : logrecord :=
  {| lvl := INFO; msg := "successfully reloaded ontology from file";
     arg := NoArg |}.

Definition error_record (text : string) : logrecord :=
  {| lvl := ERROR; msg := ""; arg := ArgText text |}.

Definition inconsistency_warning (found : list entity) : logrecord :=
  {| lvl := WARNING; msg := "the ontology is inconsistent: ";
     arg := ArgEntities found |}.

Definition unexpected_reasoner_warning (reasoner : string) : logrecord :=
  {| lvl := WARNING; msg := "unexpected reasoner: "; arg := ArgText reasoner |}.

(** *** Reading and removing restrictions *)

(** A restriction [prop] picks out. *)
Definition removed (prop : option entity) (c : construct) : bool :=
  is_restriction c && on_property prop c.

(** The characters of a string that are not angle brackets. *)
Definition without_brackets (s : string) : list ascii :=
  filter (λ c, c ≠ "<"%char ∧ c ≠ ">"%char) (String.list_ascii_of_string s).

(** A traceback with one explanation block naming [Foo]. *)
Definition single_block_traceback : string :=
  "owlready2.base.OwlReadyInconsistentOntologyError: "
  +:+ explanation_marker
  +:+ "1)   Foo subClassOf hasPart some Nothing"
  +:+ blank_line.

(** ** The datatype constraint resolver *)

Section DpConstraint.

Lemma range_type_unknown (v : pyval) :
  is_range_key v = false → range_type v = Raise (KeyError v).
Proof.
  destruct v as [| | | |s]; try reflexivity.
  unfold is_range_key, range_type. intros H.
  apply bool_decide_eq_false in H.
  destruct (_dp_range_types !! s) as [t|] eqn:E; [|reflexivity].
  exfalso. apply H. apply list_elem_of_fmap.
  exists (s, t). split; [reflexivity|]. apply elem_of_map_to_list. exact E.
Qed.

(** C6: with [min_inclusive = 0] and [max_exclusive = 10] the resolver
    takes the zero for an empty field, returns the type narrowed by
    [max_exclusive = 10] alone, and that type admits -1 (as well as 0
    and 9.999, and not 10). *)
Theorem dp_constraint_zero_bound_lost (st : editor) :
  let dpres := [PStr "float"; PNone; PInt 0; PNone; PNone; PInt 10] in
  let d := facets Tfloat None None None (Some (PInt 10)) in
  _dp_constraint dpres st = (Ok (Some d), st)
  ∧ admits d (-1 # 1) = true
  ∧ admits d (0 # 1) = true
  ∧ admits d (9999 # 1000) = true
  ∧ admits d (10 # 1) = false.
Proof. repeat split. Qed.

(** X3: with a lower bound other than zero the same fields give the
    half-open interval. *)
Lemma dp_constraint_half_open (st : editor) (lo hi : Z) :
  lo ≠ 0%Z → hi ≠ 0%Z →
  let dpres := [PStr "float"; PNone; PInt lo; PNone; PNone; PInt hi] in
  let d := facets Tfloat None (Some (PInt lo)) None (Some (PInt hi)) in
  _dp_constraint dpres st = (Ok (Some d), st)
  ∧ ∀ x : Q, admits d x = true ↔ (inject_Z lo <= x)%Q ∧ (x < inject_Z hi)%Q.
Proof.
  intros Hlo Hhi. split.
  - assert (Hk : is_range_key (PStr "float") = true) by (vm_compute; reflexivity).
    assert (Ht : range_type (PStr "float") = Ok Tfloat) by (vm_compute; reflexivity).
    assert (H1 : truthy (PInt lo) = true)
      by (apply negb_true_iff, Z.eqb_neq; exact Hlo).
    assert (H2 : truthy (PInt hi) = true)
      by (apply negb_true_iff, Z.eqb_neq; exact Hhi).
    unfold _dp_constraint, _check_available_vals.
    lazy -[truthy range_type is_range_key with_log].
    rewrite Hk, Ht, H1, H2. reflexivity.
  - intros x. unfold admits, facets, facet, Qlt_bool. simpl.
    rewrite andb_true_r, andb_true_iff, negb_true_iff.
    rewrite Qle_bool_iff. rewrite <- not_true_iff_false, Qle_bool_iff.
    split; intros [H1 H2]; split; try done.
    + by apply Qnot_le_lt.
    + by apply Qlt_not_le.
Qed.

(** C10, as stated, fails: an unknown datatype name with
    [min_exclusive] and [min_inclusive] both populated matches no
    pattern, and the resolver returns [None] without raising. *)
Lemma dp_constraint_unknown_type_None :
  (_dp_constraint [PStr "double"; PInt 1; PInt 2; PNone; PNone; PNone]
     (fresh_editor empty_ontology)).1 = Ok None.
Proof. reflexivity. Qed.

(** C10, amended: for a name that is not a key of the table, the
    resolver logs "unexpected dp range" and then raises [KeyError] on
    that name exactly when the populated fields fit one of the ten
    patterns; when they fit none, it logs a second warning and returns
    [None]. *)
Theorem dp_constraint_unknown_type (dpres : list pyval) (name : pyval)
    (st : editor) :
  length dpres = 6 →
  dpres !! 0 = Some name →
  is_range_key name = false →
  let st1 := warned "unexpected dp range: " dpres st in
  _dp_constraint dpres st =
    if existsb (fits dpres) dp_patterns
    then (Raise (KeyError name), st1)
    else (Ok None, warned "unexpected dp range restriction: " dpres st1).
Proof.
  intros Hlen H0 Hkey.
  destruct dpres as [|a [|b [|c [|d [|e [|f [|]]]]]]]; try discriminate.
  injection H0 as ->.
  pose proof (range_type_unknown _ Hkey) as Hty.
  unfold _dp_constraint, fits, dp_patterns, _check_available_vals.
  lazy -[truthy range_type is_range_key with_log].
  rewrite Hkey, Hty.
  destruct (truthy name), (truthy b), (truthy c), (truthy d), (truthy e),
    (truthy f); reflexivity.
Qed.

(** The theorem at the name "double" with [min_inclusive = 1] and
    [max_exclusive = 10]. *)
Lemma dp_constraint_unknown_type_witness :
  _dp_constraint [PStr "double"; PNone; PInt 1; PNone; PNone; PInt 10]
    (fresh_editor empty_ontology) =
    (Raise (KeyError (PStr "double")),
     warned "unexpected dp range: "
       [PStr "double"; PNone; PInt 1; PNone; PNone; PInt 10]
       (fresh_editor empty_ontology)).
Proof.
  exact (dp_constraint_unknown_type
           [PStr "double"; PNone; PInt 1; PNone; PNone; PInt 10]
           (PStr "double") (fresh_editor empty_ontology)
           eq_refl eq_refl eq_refl).
Defined.

End DpConstraint.

(** ** Building a restriction *)

Section Restrictions.

Context `{RT : PyRuntime}.

Lemma qualified_kind_not_unary (kind : pyval) :
  in_strs kind ["exactly"; "max"; "min"] = true →
  in_strs kind ["some"; "only"] = false ∧ in_strs kind ["value"] = false.
Proof.
  destruct kind as [| | | |s]; try discriminate. simpl.
  rewrite !orb_false_r, !orb_true_iff.
  intros [H|[H|H]]; apply String.eqb_eq in H; subst; done.
Qed.

(** C8: when a datatype field is populated and the inverted flag is
    set, [_add_restr_to_def] returns normally having done nothing but
    log one warning that carries the spec: the ontology, and with it
    the class's axiom lists, is as before.  Nothing is assumed about
    the restriction kind or any other field. *)
Theorem add_restr_inverted_datatype_rejected (current_axioms : axlist)
    (ri : resinfo) (opinfo : list (option entity))
    (dpinfo axiom : list pyval) (st : editor) :
  py_any dpinfo = true →
  truthy (inverted ri) = true →
  ∃ m, _add_restr_to_def current_axioms ri opinfo dpinfo axiom st =
         (Ok tt, warned m axiom st)
       ∧ onto (warned m axiom st) = onto st.
Proof.
  intros Hdp Hinv. unfold _add_restr_to_def.
  rewrite Hdp, Hinv. simpl. rewrite andb_false_r, andb_true_r.
  destruct (any_entity opinfo); simpl; eexists; split; reflexivity.
Qed.

(** C9: when a datatype field is populated and the kind is one of
    exactly, max and min, [_add_restr_to_def] returns normally having
    done nothing but log one warning; the outcome is the same function
    of the editor state whatever the other fields hold. *)
Theorem add_restr_qualified_datatype_rejected (current_axioms : axlist)
    (ri : resinfo) (opinfo : list (option entity))
    (dpinfo axiom : list pyval) (st : editor) :
  py_any dpinfo = true →
  in_strs (p_type ri) ["exactly"; "max"; "min"] = true →
  ∃ r, _add_restr_to_def current_axioms ri opinfo dpinfo axiom st =
         (Ok tt, with_log r st)
       ∧ lvl r = WARNING
       ∧ onto (with_log r st) = onto st.
Proof.
  intros Hdp Hkind. unfold _add_restr_to_def.
  destruct (qualified_kind_not_unary _ Hkind) as [Hu Hv].
  rewrite Hdp, Hu, Hv. simpl. rewrite andb_false_r, andb_true_r.
  destruct (any_entity opinfo); simpl; [by eexists|].
  destruct (truthy (inverted ri)); by eexists.
Qed.

End Restrictions.

Lemma add_restr_inverted_datatype_rejected_witness :
  py_any [PStr "integer"; PNone; PNone; PNone; PNone; PNone] = true
  ∧ truthy (PBool true) = true
  ∧ ∃ m, @_add_restr_to_def sample_runtime ("Car", is_a)
           {| prop := Some (DataProperty "hasWeight");
              inverted := PBool true; p_type := PStr "some";
              cardin := PNone; negated := PNone |}
           [None] [PStr "integer"; PNone; PNone; PNone; PNone; PNone] []
           (fresh_editor vehicles) =
         (Ok tt, warned m [] (fresh_editor vehicles))
       ∧ onto (warned m [] (fresh_editor vehicles)) = onto (fresh_editor vehicles).
Proof.
  split; [reflexivity|]. split; [reflexivity|].
  apply (@add_restr_inverted_datatype_rejected sample_runtime);
    reflexivity.
Defined.

Lemma add_restr_qualified_datatype_rejected_witness :
  py_any [PStr "float"; PNone; PNone; PNone; PNone; PNone] = true
  ∧ in_strs (PStr "exactly") ["exactly"; "max"; "min"] = true
  ∧ ∃ r, @_add_restr_to_def sample_runtime ("Car", is_a)
           {| prop := Some (DataProperty "hasWeight");
              inverted := PNone; p_type := PStr "exactly";
              cardin := PInt 2; negated := PNone |}
           [None] [PStr "float"; PNone; PNone; PNone; PNone; PNone] []
           (fresh_editor vehicles) =
         (Ok tt, with_log r (fresh_editor vehicles))
       ∧ lvl r = WARNING
       ∧ onto (with_log r (fresh_editor vehicles)) = onto (fresh_editor vehicles).
Proof.
  split; [reflexivity|]. split; [reflexivity|].
  apply (@add_restr_qualified_datatype_rejected sample_runtime);
    reflexivity.
Defined.

(** ** Adding a batch of axioms *)

Section Batches.

Context `{RT : PyRuntime}.

(** C1: a batch that starts with a spec defining no class while its
    restriction fields are populated is not skipped: after the warning
    "no class defined" the loop goes on to read the local [my_class],
    which is unbound, and [add_axioms] raises.  Whatever follows in the
    batch is not processed and nothing is saved. *)
Theorem add_axioms_classless_spec_raises (rest : list (list pyval))
    (st : editor) :
  add_axioms (classless_spec :: rest) st =
    (Raise (UnboundLocalError "my_class"),
     warned "no class defined: " classless_spec st)
  ∧ saves (warned "no class defined: " classless_spec st) = saves st
  ∧ file (warned "no class defined: " classless_spec st) = file st
  ∧ onto (warned "no class defined: " classless_spec st) = onto st.
Proof. repeat split. Qed.

End Batches.


(** ** The prompt *)

Section Prompt.

Lemma ask_again_valid (lines : list string) (u : string) (st : editor) :
  u ∈ choices → ask_again lines u st = (Ok u, st).
Proof.
  intros H. destruct lines; simpl; rewrite (bool_decide_eq_true_2 _ H);
    reflexivity.
Qed.

Lemma ask_again_invalid (l : string) (lines : list string) (u : string)
    (st : editor) :
  u ∉ choices →
  ask_again (l :: lines) u st =
    ask_again lines l (with_stdin lines (with_stdout invalid_line st)).
Proof.
  intros H. simpl. rewrite (bool_decide_eq_false_2 _ H). reflexivity.
Qed.

Lemma ask_again_eof (u : string) (st : editor) :
  u ∉ choices →
  ask_again [] u st = (Raise EOFError, with_stdout invalid_line st).
Proof.
  intros H. simpl. rewrite (bool_decide_eq_false_2 _ H). reflexivity.
Qed.

Lemma ask_again_spec (invalid : list string) (choice : string)
    (rest : list string) (first : string) (st : editor) :
  Forall (λ l, l ∉ choices) (first :: invalid) →
  choice ∈ choices →
  ∃ st', ask_again (invalid ++ choice :: rest) first st = (Ok choice, st')
    ∧ stdin st' = rest
    ∧ stdout st' = stdout st ++ replicate (S (length invalid)) invalid_line
    ∧ onto st' = onto st ∧ file st' = file st ∧ saves st' = saves st
    ∧ log st' = log st ∧ reasoner_runs st' = reasoner_runs st.
Proof.
  revert first st. induction invalid as [|l invalid IH]; intros first st Hinv Hc.
  - apply Forall_cons in Hinv as [Hf _]. simpl app.
    rewrite (ask_again_invalid _ _ _ _ Hf), (ask_again_valid _ _ _ Hc).
    eexists. split; [reflexivity|]. repeat split.
  - apply Forall_cons in Hinv as [Hf Hinv]. simpl app.
    rewrite (ask_again_invalid _ _ _ _ Hf).
    destruct (IH l (with_stdin (invalid ++ choice :: rest)
                      (with_stdout invalid_line st)) Hinv Hc)
      as (st' & -> & Hin & Hout & Ho & Hf' & Hs & Hl & Hr).
    eexists. split; [reflexivity|]. rewrite Hout. simpl.
    rewrite <- app_assoc. repeat split; assumption.
Qed.

(** C5, as stated, fails: on the input q the prompt exits with status 0,
    the status of a process that succeeded. *)
Lemma quit_exits_with_success_status :
  (_bool_user_interaction "Delete is_a axiom?" None
     (with_stdin ["q"] (fresh_editor vehicles))).1
  = Raise (SystemExit EXIT_SUCCESS).
Proof. reflexivity. Qed.

(** C5, amended: the prompt accepts exactly the lines y, n and q, compared
    as they are typed.  Every other line is consumed and answered with
    "invalid choice, please try again"; the first accepted line decides:
    y returns True, n returns False, and q prints a notice and raises
    [SystemExit] with status 0.  The lines after it stay on the console
    and the ontology and its file are untouched. *)
Theorem bool_user_interaction_accepts_y_n_q (question : string)
    (info : option string) (st : editor) (invalid : list string)
    (choice : string) (rest : list string) :
  stdin st = invalid ++ choice :: rest →
  Forall (λ l, l ∉ choices) invalid →
  choice ∈ choices →
  ∃ st', _bool_user_interaction question info st = (verdict choice, st')
    ∧ stdin st' = rest
    ∧ stdout st' = stdout st ++ banner question info
                     ++ replicate (length invalid) invalid_line
                     ++ (if String.eqb choice "q" then [quit_line] else [])
    ∧ onto st' = onto st ∧ file st' = file st ∧ saves st' = saves st.
Proof.
  intros Hin Hinv Hc.
  set (st1 := match info with
              | Some i => if String.eqb i "" then st else with_stdout i st
              | None => st
              end).
  assert (E1 : match info with
               | Some i => if String.eqb i "" then ret tt else print i
               | None => ret tt
               end st = (Ok tt, st1)).
  { unfold st1. destruct info as [i|]; [destruct (String.eqb i "")|];
      reflexivity. }
  assert (Hst1 : stdin st1 = invalid ++ choice :: rest
                 ∧ stdout st1 ++ [question +:+ " [y(es), n(o), q(uit)]"]
                   = stdout st ++ banner question info
                 ∧ onto st1 = onto st ∧ file st1 = file st
                 ∧ saves st1 = saves st).
  { unfold st1, banner. destruct info as [i|]; [destruct (String.eqb i "")|];
      simpl; rewrite <- ?app_assoc; repeat split; assumption. }
  destruct Hst1 as (Hin1 & Hout1 & Ho1 & Hf1 & Hs1).
  set (st2 := with_stdout (question +:+ " [y(es), n(o), q(uit)]") st1).
  assert (Hloop : ∃ st3,
             ask_again (tail (stdin st1)) (default "" (head (stdin st1)))
               (with_stdin (tail (stdin st1)) st2) = (Ok choice, st3)
             ∧ stdin st3 = rest
             ∧ stdout st3 = stdout st2 ++ replicate (length invalid) invalid_line
             ∧ onto st3 = onto st2 ∧ file st3 = file st2
             ∧ saves st3 = saves st2).
  { rewrite Hin1.
    destruct invalid as [|first invalid]; simpl.
    - rewrite (ask_again_valid _ _ _ Hc). eexists. split; [reflexivity|].
      simpl. rewrite app_nil_r. repeat split.
    - destruct (ask_again_spec invalid choice rest first
                  (with_stdin (invalid ++ choice :: rest) st2) Hinv Hc)
        as (st3 & -> & H1 & H2 & H3 & H4 & H5 & _).
      eexists. split; [reflexivity|]. repeat split; assumption. }
  destruct Hloop as (st3 & Hrun & Hin3 & Hout3 & Ho3 & Hf3 & Hs3).
  assert (Hhead : stdin st2 = default "" (head (stdin st2)) :: tail (stdin st2)).
  { change (stdin st2) with (stdin st1). rewrite Hin1.
    destruct invalid; reflexivity. }
  unfold _bool_user_interaction, mbind, M_bind, bind.
  rewrite E1. unfold print at 1. fold st2. unfold input.
  rewrite Hhead. simpl stdin. rewrite Hrun.
  assert (Hout : stdout st3 = stdout st ++ banner question info
                               ++ replicate (length invalid) invalid_line).
  { rewrite Hout3. change (stdout st2)
      with (stdout st1 ++ [question +:+ " [y(es), n(o), q(uit)]"]).
    rewrite Hout1, <- app_assoc. reflexivity. }
  assert (Ho : onto st3 = onto st) by (rewrite Ho3; exact Ho1).
  assert (Hf : file st3 = file st) by (rewrite Hf3; exact Hf1).
  assert (Hs : saves st3 = saves st) by (rewrite Hs3; exact Hs1).
  unfold verdict.
  apply elem_of_cons in Hc as [->|Hc]; [|apply elem_of_cons in Hc as [->|Hc];
    [|apply list_elem_of_singleton in Hc as ->]]; simpl;
    eexists; (split; [reflexivity|]); simpl;
    rewrite ?Hout, <- ?app_assoc, ?app_nil_r; repeat split; assumption.
Qed.

End Prompt.

Lemma bool_user_interaction_accepts_y_n_q_witness :
  stdin (with_stdin ["Y"; "yes"; "n"; "y"] (fresh_editor vehicles))
    = ["Y"; "yes"] ++ "n" :: ["y"]
  ∧ Forall (λ l, l ∉ choices) ["Y"; "yes"]
  ∧ "n" ∈ choices
  ∧ ∃ st', _bool_user_interaction "Delete is_a axiom?" None
             (with_stdin ["Y"; "yes"; "n"; "y"] (fresh_editor vehicles))
           = (verdict "n", st')
    ∧ stdin st' = ["y"]
    ∧ stdout st' = stdout (with_stdin ["Y"; "yes"; "n"; "y"] (fresh_editor vehicles))
                     ++ banner "Delete is_a axiom?" None
                     ++ replicate (length ["Y"; "yes"]) invalid_line
                     ++ (if String.eqb "n" "q" then [quit_line] else [])
    ∧ onto st' = onto (with_stdin ["Y"; "yes"; "n"; "y"] (fresh_editor vehicles))
    ∧ file st' = file (with_stdin ["Y"; "yes"; "n"; "y"] (fresh_editor vehicles))
    ∧ saves st' = saves (with_stdin ["Y"; "yes"; "n"; "y"] (fresh_editor vehicles)).
Proof.
  assert (H1 : Forall (λ l : string, l ∉ choices) ["Y"; "yes"])
    by compute_done.
  assert (H2 : "n" ∈ choices) by compute_done.
  split; [reflexivity|]. split; [exact H1|]. split; [exact H2|].
  exact (bool_user_interaction_accepts_y_n_q "Delete is_a axiom?" None
           (with_stdin ["Y"; "yes"; "n"; "y"] (fresh_editor vehicles))
           ["Y"; "yes"] "n" ["y"] eq_refl H1 H2).
Defined.

(** ** Text *)

Section Text.

















End Text.

(** ** The reasoner orchestration *)

Global Instance same_store_preorder : PreOrder same_store.
Proof.
  split.
  - intros s. repeat split.
  - intros a b c (?&?&?) (?&?&?). repeat split; congruence.
Qed.

Global Instance same_runs_preorder : PreOrder same_runs.
Proof.
  split; [intros s; reflexivity|].
  intros a b c H1 H2. unfold same_runs in *. congruence.
Qed.

Global Instance same_console_preorder : PreOrder same_console.
Proof.
  split.
  - intros s. repeat split.
  - intros a b c (?&?) (?&?). split; congruence.
Qed.

Global Instance logged_info_preorder : PreOrder logged_info.
Proof.
  split.
  - intros s. exists []. rewrite app_nil_r. split; [reflexivity|constructor].
  - intros a b c (i1 & H1 & F1) (i2 & H2 & F2). exists (i1 ++ i2).
    rewrite H2, H1, <- app_assoc. split; [reflexivity|].
    apply Forall_app. split; assumption.
Qed.

Lemma keeps_bind {A B} (R : relation editor) `{!PreOrder R}
    (m : M A) (k : A → M B) :
  keeps R m → (∀ a, keeps R (k a)) → keeps R (m ≫= k).
Proof.
  intros Hm Hk s. unfold mbind, M_bind, bind. specialize (Hm s).
  destruct (m s) as [[a|e] s']; simpl in *.
  - etrans; [exact Hm | apply Hk].
  - exact Hm.
Qed.

Lemma keeps_ret {A} (R : relation editor) `{!Reflexive R} (a : A) :
  keeps R (ret a).
Proof. intros s. simpl. reflexivity. Qed.

Lemma keeps_raise {A} (R : relation editor) `{!Reflexive R} (e : exn) :
  keeps R (raise e : M A).
Proof. intros s. simpl. reflexivity. Qed.

Lemma keeps_lift {A} (R : relation editor) `{!Reflexive R} (r : result A) :
  keeps R (lift r).
Proof. intros s. simpl. reflexivity. Qed.

Section Reasoning.

Context `{RT : PyRuntime} `{RS : Reasoner}.

Lemma reasoning_unfold (fuel : nat) (reasoner : string) (save debug : bool)
    (st : editor) :
  reasoning (S fuel) reasoner save debug st =
    let st1 := checked reasoner st in
    match run_reasoner reasoner debug (file st1) st1 with
    | (Ok (Inferred inf), st2) =>
        conclude save inf (inconsistent_classes inf) st2
    | (Ok (Crashed exc tb), st2) =>
        match handle_crash fuel reasoner debug exc tb st2 with
        | (Ok found, st3) => conclude save (file st1) found st3
        | (Raise e, st3) => (Raise e, st3)
        end
    | (Raise e, st2) => (Raise e, st2)
    end.
Proof.
  unfold checked. simpl. unfold mbind, M_bind, bind, load_file.
  destruct (_check_reasoner reasoner st) as [[[]|e] st1] eqn:E.
  - simpl.
    destruct (run_reasoner reasoner debug (file st1) st1) as [[[inf|exc tb]|e] st2];
      try reflexivity.
    unfold handle_crash.
    destruct (String.eqb reasoner "pellet" && debug);
      match goal with
      | |- context [match ?m st2 with _ => _ end] =>
          destruct (m st2) as [[found|e] st3]; reflexivity
      end.
  - unfold _check_reasoner in E. case_bool_decide; discriminate.
Qed.

(** *** The pieces of [reasoning] *)

Lemma check_reasoner_known (reasoner : string) (st : editor) :
  reasoner = "hermit" ∨ reasoner = "pellet" → checked reasoner st = st.
Proof. intros [->| ->]; reflexivity. Qed.

Lemma checked_fields (reasoner : string) (st : editor) :
  same_store st (checked reasoner st)
  ∧ same_runs st (checked reasoner st)
  ∧ same_console st (checked reasoner st).
Proof.
  unfold checked, _check_reasoner. case_bool_decide; simpl; repeat split.
Qed.

(** Leaving the redirect returns; it adds at most two records of level
    [INFO] to the log and touches nothing else. *)
Lemma redirect_to_log_spec (captured : string * string) (st : editor) :
  ∃ st', _redirect_to_log captured st = (Ok tt, st')
    ∧ same_store st st' ∧ same_runs st st' ∧ same_console st st'
    ∧ logged_info st st'.
Proof.
  unfold _redirect_to_log, mbind, M_bind, bind.
  destruct (String.eqb captured.1 ""), (String.eqb captured.2 "");
    simpl; eexists; (split; [reflexivity|]); repeat split;
    eexists; (split; [simpl; rewrite <- ?app_assoc; try reflexivity;
                      symmetry; apply app_nil_r
                     |repeat constructor]).
Qed.

(** What the [try] block gives depends on the file alone. *)
Lemma run_reasoner_result (reasoner : string) (debug : bool) (f : ontology)
    (s s' : editor) :
  (run_reasoner reasoner debug f s).1 = (run_reasoner reasoner debug f s').1.
Proof.
  unfold run_reasoner, mbind, M_bind, bind.
  destruct (String.eqb reasoner "hermit").
  - destruct (redirect_to_log_spec (hermit_console f) (with_run "hermit" 1 s))
      as (s1 & -> & _).
    destruct (redirect_to_log_spec (hermit_console f) (with_run "hermit" 1 s'))
      as (s2 & -> & _).
    reflexivity.
  - destruct (String.eqb reasoner "pellet"); [|reflexivity]. cbv zeta.
    destruct (redirect_to_log_spec
                (pellet_console f ((if debug then 1 else 0) + 1))
                (with_run "pellet" ((if debug then 1 else 0) + 1) s))
      as (s1 & -> & _).
    destruct (redirect_to_log_spec
                (pellet_console f ((if debug then 1 else 0) + 1))
                (with_run "pellet" ((if debug then 1 else 0) + 1) s'))
      as (s2 & -> & _).
    reflexivity.
Qed.

(** The block as a function of the reasoner's answer: the run is put on
    record, the console of the reasoner goes to the log. *)
Lemma run_reasoner_spec (reasoner : string) (debug : bool) (f : ontology)
    (s : editor) :
  ∃ o, run_reasoner reasoner debug f s = (Ok o, ran reasoner debug f s)
    ∧ same_store s (ran reasoner debug f s)
    ∧ same_console s (ran reasoner debug f s)
    ∧ logged_info s (ran reasoner debug f s)
    ∧ ((reasoner = "hermit" ∧ o = sync_reasoner_hermit f
        ∧ reasoner_runs (ran reasoner debug f s)
          = reasoner_runs s ++ [("hermit", 1)])
       ∨ (reasoner = "pellet"
          ∧ o = sync_reasoner_pellet f ((if debug then 1 else 0) + 1)
          ∧ reasoner_runs (ran reasoner debug f s)
            = reasoner_runs s ++ [("pellet", (if debug then 1 else 0) + 1)])
       ∨ ((reasoner ∉ ["hermit"; "pellet"]) ∧ o = Inferred f
          ∧ ran reasoner debug f s = s)).
Proof.
  unfold ran, run_reasoner, mbind, M_bind, bind.
  destruct (String.eqb reasoner "hermit") eqn:Eh.
  - apply String.eqb_eq in Eh.
    destruct (redirect_to_log_spec (hermit_console f) (with_run "hermit" 1 s))
      as (s1 & -> & (Ho & Hf & Hs) & Hr & (Hout & Hin) & Hl).
    simpl. eexists. split; [reflexivity|].
    split; [repeat split; assumption|].
    split; [split; assumption|]. split; [exact Hl|].
    left. split; [exact Eh|]. split; [reflexivity|exact Hr].
  - destruct (String.eqb reasoner "pellet") eqn:Ep.
    + apply String.eqb_eq in Ep. cbv zeta.
      destruct (redirect_to_log_spec
                  (pellet_console f ((if debug then 1 else 0) + 1))
                  (with_run "pellet" ((if debug then 1 else 0) + 1) s))
        as (s1 & -> & (Ho & Hf & Hs) & Hr & (Hout & Hin) & Hl).
      simpl. eexists. split; [reflexivity|].
      split; [repeat split; assumption|].
      split; [split; assumption|]. split; [exact Hl|].
      right. left. split; [exact Ep|]. split; [reflexivity|exact Hr].
    + simpl. eexists. split; [reflexivity|].
      split; [repeat split|]. split; [repeat split|].
      split; [reflexivity|]. right. right.
      split; [|split; reflexivity].
      apply String.eqb_neq in Eh, Ep. intros H.
      apply elem_of_cons in H as [H|H]; [contradiction|].
      apply elem_of_cons in H as [H|H]; [contradiction|]. inversion H.
Qed.

Lemma run_reasoner_returns (reasoner : string) (debug : bool) (f : ontology)
    (s : editor) :
  ∃ o, (run_reasoner reasoner debug f s).1 = Ok o.
Proof.
  destruct (run_reasoner_spec reasoner debug f s) as (o & -> & _).
  exists o. reflexivity.
Qed.

Lemma run_reasoner_fields (reasoner : string) (debug : bool) (f : ontology)
    (s : editor) :
  same_store s (run_reasoner reasoner debug f s).2
  ∧ same_console s (run_reasoner reasoner debug f s).2
  ∧ logged_info s (run_reasoner reasoner debug f s).2.
Proof.
  destruct (run_reasoner_spec reasoner debug f s) as (o & _ & H1 & H2 & H3 & _).
  auto.
Qed.

(** Only the two backends can crash, and a crash leaves its run on the
    record. *)
Lemma run_reasoner_crashed (reasoner : string) (debug : bool) (f : ontology)
    (s : editor) (exc tb : string) :
  (run_reasoner reasoner debug f s).1 = Ok (Crashed exc tb) →
  (reasoner = "hermit"
   ∧ sync_reasoner_hermit f = Crashed exc tb
   ∧ reasoner_runs (ran reasoner debug f s)
     = reasoner_runs s ++ [("hermit", 1)])
  ∨ (reasoner = "pellet"
     ∧ sync_reasoner_pellet f ((if debug then 1 else 0) + 1) = Crashed exc tb
     ∧ reasoner_runs (ran reasoner debug f s)
       = reasoner_runs s ++ [("pellet", (if debug then 1 else 0) + 1)]).
Proof.
  destruct (run_reasoner_spec reasoner debug f s)
    as (o & -> & _ & _ & _ & [(Hr & -> & Hruns)|[(Hr & -> & Hruns)|(_ & -> & _)]]);
    simpl; intros [= H]; [left|right]; auto.
Qed.

(** *** [conclude] *)

Lemma conclude_result (save : bool) (inf : ontology) (l : list entity)
    (st : editor) :
  (conclude save inf l st).1 = Ok (without_Nothing l).
Proof.
  destruct l as [|c l]; [destruct save; reflexivity|reflexivity].
Qed.

Lemma conclude_empty (save : bool) (inf : ontology) (st : editor) :
  conclude save inf [] st =
    (Ok [],
     if save
     then with_log {| lvl := INFO;
                      msg := "successfully reloaded ontology from file";
                      arg := NoArg |}
            (with_onto inf (with_file inf st))
     else st).
Proof. destruct save; reflexivity. Qed.

Lemma conclude_fields (save : bool) (inf : ontology) (l : list entity)
    (st : editor) :
  same_runs st (conclude save inf l st).2
  ∧ same_console st (conclude save inf l st).2.
Proof. destruct l; [destruct save|]; repeat split. Qed.

Lemma conclude_keeps_store (inf : ontology) (l : list entity) :
  keeps same_store (conclude false inf l).
Proof. intros st. destruct l; repeat split. Qed.

(** *** [list.remove] and [Nothing] *)






(** *** The explanation *)

Lemma named_classes_raises (o : ontology) (axs : list (list string)) (e : exn) :
  named_classes o axs = Raise e → e = IndexError.
Proof.
  induction axs as [|[|tok ax] axs IH]; simpl; [discriminate|congruence|].
  destruct (named_classes o axs) as [found|e']; simpl; [discriminate|].
  intros [= <-]. apply IH. reflexivity.
Qed.


Lemma remove_dups_nil {A} `{EqDecision A} (l : list A) :
  remove_dups l = [] ↔ l = [].
Proof.
  split; [|intros ->; reflexivity].
  destruct l as [|x l]; [reflexivity|]. intros H.
  assert (Hx : x ∈ remove_dups (x :: l)) by (apply elem_of_remove_dups; left).
  rewrite H in Hx. inversion Hx.
Qed.


(** *** [_analyze_pellet_results] *)

Lemma analyze_unparsed (exc tb : string) (st : editor) :
  blocks tb = [] →
  _analyze_pellet_results exc tb st =
    (Ok [],
     with_log {| lvl := ERROR; msg := ""; arg := ArgText (_indent_log tb) |}
       (with_stdout complex_issue_line
          (with_log {| lvl := ERROR; msg := ""; arg := ArgText exc |} st))).
Proof.
  unfold blocks. intros H.
  unfold _analyze_pellet_results, _extract_pellet_explanation.
  rewrite H. reflexivity.
Qed.

Lemma analyze_parsed (exc tb : string) (st : editor) :
  blocks tb ≠ [] →
  _analyze_pellet_results exc tb st =
    (rbind (named_classes (onto st) (references tb))
       (λ found, Ok (remove_dups found)),
     with_stdout (Str.join Str.nl (_extract_pellet_explanation tb).1)
       (with_stdout "Pellet provides the following explanation(s):"
          (with_log {| lvl := ERROR; msg := ""; arg := ArgText exc |} st))).
Proof.
  intros H. unfold references, _analyze_pellet_results.
  destruct (_extract_pellet_explanation tb) as [res axioms] eqn:E.
  assert (Hres : res ≠ []).
  { unfold _extract_pellet_explanation in E. injection E as <- _.
    intros Hnil. apply H, (proj1 (remove_dups_nil _)), Hnil. }
  destruct res as [|b res]; [congruence|].
  unfold mbind, M_bind, bind, print, logger, get_onto, lift, ret. simpl.
  destruct (named_classes (onto st) (concat axioms)); reflexivity.
Qed.

Lemma analyze_keeps (exc tb : string) :
  keeps same_store (_analyze_pellet_results exc tb)
  ∧ keeps same_runs (_analyze_pellet_results exc tb).
Proof.
  split; intros st.
  - destruct (blocks tb) eqn:E.
    + rewrite analyze_unparsed by exact E. repeat split.
    + rewrite analyze_parsed by (rewrite E; discriminate). repeat split.
  - destruct (blocks tb) eqn:E.
    + rewrite analyze_unparsed by exact E. reflexivity.
    + rewrite analyze_parsed by (rewrite E; discriminate). reflexivity.
Qed.

Lemma analyze_result (exc tb : string) (st : editor) :
  (∃ found, (_analyze_pellet_results exc tb st).1 = Ok found ∧ NoDup found)
  ∨ (_analyze_pellet_results exc tb st).1 = Raise IndexError.
Proof.
  destruct (blocks tb) eqn:E.
  - rewrite analyze_unparsed by exact E. left. exists []. split; [reflexivity|constructor].
  - rewrite analyze_parsed by (rewrite E; discriminate). simpl.
    destruct (named_classes (onto st) (references tb)) as [found|e] eqn:En.
    + left. eexists. split; [reflexivity|apply NoDup_remove_dups].
    + right. apply named_classes_raises in En as ->. reflexivity.
Qed.

(** *** The two ways through [reasoning] after a crash *)

(** A run of Pellet with explanations: no further call of [reasoning]. *)
Lemma reasoning_explainable (fuel : nat) (save : bool) (st : editor) :
  reasoning (S fuel) "pellet" save true st =
    let st2 := ran "pellet" true (file st) st in
    match sync_reasoner_pellet (file st) 2 with
    | Inferred inf => conclude save inf (inconsistent_classes inf) st2
    | Crashed exc tb =>
        match _analyze_pellet_results exc tb st2 with
        | (Ok found, st3) => conclude save (file st) found st3
        | (Raise e, st3) => (Raise e, st3)
        end
    end.
Proof.
  rewrite reasoning_unfold.
  rewrite check_reasoner_known by (right; reflexivity). cbv zeta.
  destruct (run_reasoner_spec "pellet" true (file st) st)
    as (o & -> & _ & _ & _ & [(Hr & _)|[(_ & -> & _)|(Hr & _)]]).
  - discriminate.
  - unfold handle_crash. simpl.
    destruct (sync_reasoner_pellet (file st) 2); reflexivity.
  - exfalso. apply Hr. right. left.
Qed.

(** Any other run that crashes: one call of [reasoning] for Pellet with
    explanations and without saving. *)
Lemma reasoning_escalated (fuel : nat) (reasoner : string) (save debug : bool)
    (st : editor) (exc tb : string) :
  (run_reasoner reasoner debug (file st) st).1 = Ok (Crashed exc tb) →
  String.eqb reasoner "pellet" && debug = false →
  reasoning (S fuel) reasoner save debug st =
    match reasoning fuel "pellet" false true
            (ran reasoner debug (file st) st) with
    | (Ok found, st3) => conclude save (file st) found st3
    | (Raise e, st3) => (Raise e, st3)
    end.
Proof.
  intros Hcrash Hpd. rewrite reasoning_unfold.
  rewrite check_reasoner_known
    by (apply run_reasoner_crashed in Hcrash as [(-> & _)|(-> & _)]; auto).
  cbv zeta. unfold ran.
  destruct (run_reasoner reasoner debug (file st) st) as [r st2].
  simpl in Hcrash. subst r. simpl.
  unfold handle_crash. rewrite Hpd. reflexivity.
Qed.

Lemma ran_fields (reasoner : string) (debug : bool) (f : ontology)
    (st : editor) :
  same_store st (ran reasoner debug f st)
  ∧ same_console st (ran reasoner debug f st)
  ∧ logged_info st (ran reasoner debug f st).
Proof. apply run_reasoner_fields. Qed.

Lemma ran_explainable_runs (f : ontology) (st : editor) :
  reasoner_runs (ran "pellet" true f st) = reasoner_runs st ++ [("pellet", 2)].
Proof.
  destruct (run_reasoner_spec "pellet" true f st)
    as (o & _ & _ & _ & _ & [(Hr & _)|[(_ & _ & H)|(Hr & _)]]).
  - discriminate.
  - exact H.
  - exfalso. apply Hr. right. left.
Qed.

Lemma ran_crashed_runs (reasoner : string) (debug : bool) (f : ontology)
    (st : editor) (exc tb : string) :
  (run_reasoner reasoner debug f st).1 = Ok (Crashed exc tb) →
  String.eqb reasoner "pellet" && debug = false →
  reasoner_runs (ran reasoner debug f st) = reasoner_runs st ++ [(reasoner, 1)].
Proof.
  intros Hcrash Hpd.
  apply run_reasoner_crashed in Hcrash as [(-> & _ & H)|(-> & _ & H)].
  - exact H.
  - simpl in Hpd. subst debug. exact H.
Qed.

(** *** Termination *)

Lemma reasoning_explainable_raises (fuel : nat) (save : bool) (st : editor)
    (e : exn) :
  (reasoning (S fuel) "pellet" save true st).1 = Raise e → e = IndexError.
Proof.
  rewrite reasoning_explainable. cbv zeta.
  destruct (sync_reasoner_pellet (file st) 2) as [inf|exc tb].
  - rewrite conclude_result. discriminate.
  - destruct (analyze_result exc tb (ran "pellet" true (file st) st))
      as [(found & Hf & _)|Hr];
      destruct (_analyze_pellet_results exc tb (ran "pellet" true (file st) st))
        as [[found'|e'] st3]; simpl in *; try discriminate.
    + rewrite conclude_result. discriminate.
    + congruence.
Qed.

(** The only exception [reasoning] lets through is the [IndexError] of
    [_analyze_pellet_results]; two levels of calls are always enough. *)
Lemma reasoning_raises (fuel : nat) (reasoner : string) (save debug : bool)
    (st : editor) (e : exn) :
  (reasoning (S (S fuel)) reasoner save debug st).1 = Raise e → e = IndexError.
Proof.
  rewrite reasoning_unfold. cbv zeta.
  destruct (run_reasoner_returns reasoner debug (file (checked reasoner st))
              (checked reasoner st)) as [o Ho].
  destruct (run_reasoner reasoner debug (file (checked reasoner st))
              (checked reasoner st)) as [r st2].
  simpl in Ho. subst r. destruct o as [inf|exc tb].
  - rewrite conclude_result. discriminate.
  - unfold handle_crash. destruct (String.eqb reasoner "pellet" && debug).
    + destruct (analyze_result exc tb st2) as [(found & Hf & _)|Hr];
        destruct (_analyze_pellet_results exc tb st2) as [[found'|e'] st3];
        simpl in *; try discriminate.
      * rewrite conclude_result. discriminate.
      * congruence.
    + pose proof (reasoning_explainable_raises fuel false st2) as Hin.
      destruct (reasoning (S fuel) "pellet" false true st2) as [[found|e'] st3].
      * rewrite conclude_result. discriminate.
      * simpl in *. intros [= <-]. apply Hin. reflexivity.
Qed.

Lemma reasoning_explainable_depth (fuel : nat) (save : bool) (st : editor) :
  reasoning (S fuel) "pellet" save true st = reasoning 1 "pellet" save true st.
Proof. rewrite !reasoning_explainable. reflexivity. Qed.

Lemma reasoning_depth (fuel : nat) (reasoner : string) (save debug : bool)
    (st : editor) :
  reasoning (S (S fuel)) reasoner save debug st
  = reasoning 2 reasoner save debug st.
Proof.
  rewrite !reasoning_unfold. cbv zeta.
  destruct (run_reasoner reasoner debug (file (checked reasoner st))
              (checked reasoner st)) as [[[inf|exc tb]|e] st2]; reflexivity.
Qed.

Lemma reasoning_explainable_runs (fuel : nat) (save : bool) (st : editor) :
  reasoner_runs (reasoning (S fuel) "pellet" save true st).2
  = reasoner_runs st ++ [("pellet", 2)].
Proof.
  rewrite reasoning_explainable. cbv zeta.
  rewrite <- (ran_explainable_runs (file st) st).
  destruct (sync_reasoner_pellet (file st) 2) as [inf|exc tb].
  - apply (conclude_fields save inf _ (ran "pellet" true (file st) st)).
  - pose proof (proj2 (analyze_keeps exc tb) (ran "pellet" true (file st) st))
      as Ha.
    destruct (_analyze_pellet_results exc tb (ran "pellet" true (file st) st))
      as [[found|e] st3]; simpl in Ha.
    + rewrite (proj1 (conclude_fields save (file st) found st3)). exact Ha.
    + exact Ha.
Qed.

(** C7: a run that crashes, unless it is Pellet with explanations, is
    followed by exactly one more run, Pellet with explanations (debug
    level 2), whatever that run does: two levels of calls give the result
    of any greater number, the cut-off of the model is never reached, and
    the record of runs grows by the crashed run and the retry. *)
Theorem reasoning_escalates_once (fuel : nat) (reasoner : string)
    (save debug : bool) (st : editor) (exc tb : string) :
  (run_reasoner reasoner debug (file st) st).1 = Ok (Crashed exc tb) →
  String.eqb reasoner "pellet" && debug = false →
  2 ≤ fuel →
  let out := reasoning fuel reasoner save debug st in
  out = reasoning 2 reasoner save debug st
  ∧ out.1 ≠ Raise OutOfFuel
  ∧ reasoner_runs out.2
    = reasoner_runs st ++ [(reasoner, 1); ("pellet", 2)].
Proof.
  intros Hcrash Hpd Hfuel.
  destruct fuel as [|[|fuel]]; [lia|lia|]. cbv zeta. split; [|split].
  - apply reasoning_depth.
  - intros H. apply reasoning_raises in H. discriminate.
  - rewrite (reasoning_escalated (S fuel) _ _ _ _ _ _ Hcrash Hpd).
    pose proof (reasoning_explainable_runs fuel false
                  (ran reasoner debug (file st) st)) as Hin.
    rewrite (ran_crashed_runs _ _ _ _ _ _ Hcrash Hpd), <- app_assoc in Hin.
    destruct (reasoning (S fuel) "pellet" false true
                (ran reasoner debug (file st) st))
      as [[found|e] st3]; simpl in Hin.
    + rewrite (proj1 (conclude_fields save (file st) found st3)). exact Hin.
    + exact Hin.
Qed.

(** *** Runs without saving *)

(** With [save=False] no run, whatever the reasoners do, touches the
    ontology in memory or the file. *)
Lemma reasoning_without_save_keeps_store (fuel : nat) (reasoner : string)
    (debug : bool) :
  keeps same_store (reasoning fuel reasoner false debug).
Proof.
  revert reasoner debug.
  induction fuel as [|fuel IH]; intros reasoner debug st; [repeat split|].
  rewrite reasoning_unfold. simpl.
  pose proof (proj1 (checked_fields reasoner st)) as H1.
  pose proof (proj1 (run_reasoner_fields reasoner debug
                       (file (checked reasoner st)) (checked reasoner st)))
    as H2.
  destruct (run_reasoner reasoner debug (file (checked reasoner st))
              (checked reasoner st)) as [[[inf|exc tb]|e] st2]; simpl in H2.
  - etrans; [exact H1|]. etrans; [exact H2|]. apply conclude_keeps_store.
  - assert (H3 : same_store st2 (handle_crash fuel reasoner debug exc tb st2).2).
    { unfold handle_crash. destruct (String.eqb reasoner "pellet" && debug).
      - apply analyze_keeps.
      - apply IH. }
    destruct (handle_crash fuel reasoner debug exc tb st2) as [[found|e] st3];
      simpl in H3.
    + etrans; [exact H1|]. etrans; [exact H2|]. etrans; [exact H3|].
      apply conclude_keeps_store.
    + etrans; [exact H1|]. etrans; [exact H2|]. exact H3.
  - etrans; [exact H1|exact H2].
Qed.

Lemma reasoning_consistent (fuel : nat) (reasoner : string) (save debug : bool)
    (st : editor) (inf : ontology) :
  (run_reasoner reasoner debug (file st) st).1 = Ok (Inferred inf) →
  inconsistent_classes inf = [] →
  (reasoning (S fuel) reasoner save debug st).1 = Ok [].
Proof.
  intros Hrun Hinf. rewrite reasoning_unfold. simpl.
  pose proof (proj1 (checked_fields reasoner st)) as (_ & Hfile & _).
  rewrite Hfile.
  rewrite (run_reasoner_result _ _ _ _ (checked reasoner st)) in Hrun.
  destruct (run_reasoner reasoner debug (file st) (checked reasoner st))
    as [r st2].
  simpl in Hrun. subst r. rewrite Hinf. rewrite conclude_result. reflexivity.
Qed.

(** C4: when the reasoner completes on the file and finds no inconsistent
    class, a check with [save=False] returns the empty report and leaves
    the ontology in memory, the file and the number of saves as they
    were; a second check on the state the first one left does the same. *)
Theorem reasoning_without_save_frame (fuel : nat) (reasoner : string)
    (debug : bool) (st : editor) (inf : ontology) :
  (run_reasoner reasoner debug (file st) st).1 = Ok (Inferred inf) →
  inconsistent_classes inf = [] →
  1 ≤ fuel →
  let first := reasoning fuel reasoner false debug st in
  let second := reasoning fuel reasoner false debug first.2 in
  first.1 = Ok [] ∧ same_store st first.2
  ∧ second.1 = Ok [] ∧ same_store first.2 second.2.
Proof.
  intros Hrun Hinf Hfuel. destruct fuel as [|fuel]; [lia|]. cbv zeta.
  pose proof (reasoning_without_save_keeps_store (S fuel) reasoner debug st)
    as Hfirst.
  split; [|split; [|split]].
  - apply (reasoning_consistent _ _ _ _ _ inf); assumption.
  - exact Hfirst.
  - apply (reasoning_consistent _ _ _ _ _ inf); [|exact Hinf].
    destruct Hfirst as (_ & Hfile & _). rewrite Hfile.
    rewrite <- Hrun. apply run_reasoner_result.
  - apply reasoning_without_save_keeps_store.
Qed.


Lemma ran_onto (reasoner : string) (debug : bool) (f : ontology)
    (st : editor) :
  onto (ran reasoner debug f st) = onto st.
Proof. apply (ran_fields reasoner debug f st). Qed.




(** *** The report after a crash *)




(** *** [Nothing] in a report *)






End Reasoning.

(** *** Examples *)



(** The log of that run, record by record. *)
Lemma unparsed_failure_log :
  log (reasoning (RT := sample_runtime) (RS := crashing_reasoner "boom")
         2 "hermit" true false (fresh_editor vehicles)).2
  = [ {| lvl := INFO; msg := "reasoner output redirect: " +:+ Str.nl;
         arg := ArgText ">   * Owlready2 * Running Pellet..." |};
      {| lvl := INFO; msg := "reasoner errors redirect: " +:+ Str.nl;
         arg := ArgText ">   java: ontology is inconsistent" |};
      error_record "OwlReadyInconsistentOntologyError";
      error_record ">   boom";
      reloaded ].
Proof. vm_compute. reflexivity. Qed.

Lemma reasoning_escalates_once_witness :
  let out := reasoning (RT := sample_runtime) (RS := crashing_reasoner "boom")
               5 "hermit" false false (fresh_editor vehicles) in
  out = reasoning (RT := sample_runtime) (RS := crashing_reasoner "boom")
          2 "hermit" false false (fresh_editor vehicles)
  ∧ out.1 ≠ Raise OutOfFuel
  ∧ reasoner_runs out.2 = [("hermit", 1); ("pellet", 2)].
Proof.
  apply (reasoning_escalates_once
           (RT := sample_runtime) (RS := crashing_reasoner "boom")
           5 "hermit" false false (fresh_editor vehicles)
           "OwlReadyJavaError" "");
    [reflexivity|reflexivity|lia].
Defined.

Lemma reasoning_without_save_frame_witness :
  let st := fresh_editor vehicles in
  let first := reasoning (RT := sample_runtime) (RS := quiet_reasoner)
                 1 "hermit" false false st in
  let second := reasoning (RT := sample_runtime) (RS := quiet_reasoner)
                  1 "hermit" false false first.2 in
  first.1 = Ok [] ∧ same_store st first.2
  ∧ second.1 = Ok [] ∧ same_store first.2 second.2.
Proof.
  apply (reasoning_without_save_frame
           (RT := sample_runtime) (RS := quiet_reasoner)
           1 "hermit" false (fresh_editor vehicles) vehicles);
    [reflexivity|reflexivity|lia].
Defined.



Lemma single_block_report :
  blocks single_block_traceback = ["1)   Foo subClassOf hasPart some Nothing"]
  ∧ references single_block_traceback
    = [["Foo"; "subClassOf"; "hasPart"; "some"; "Nothing"]].
Proof. vm_compute. split; reflexivity. Qed.

(** ** More on the datatype constraint resolver *)

(** ** [_check_available_vals] *)

Lemma py_all_spec (vs : list pyval) :
  py_all vs = true ↔ ∀ v, v ∈ vs → truthy v = true.
Proof.
  unfold py_all. rewrite forallb_forall. split; intros H v Hv; apply H.
  - apply list_elem_of_In, Hv.
  - apply list_elem_of_In, Hv.
Qed.

Lemma py_any_spec (vs : list pyval) :
  py_any vs = false ↔ ∀ v, v ∈ vs → truthy v = false.
Proof.
  unfold py_any. split.
  - intros H v Hv. destruct (truthy v) eqn:E; [|reflexivity].
    rewrite <- H. symmetry. apply existsb_exists. exists v.
    split; [apply list_elem_of_In, Hv|exact E].
  - intros H. destruct (existsb truthy vs) eqn:E; [|reflexivity].
    apply existsb_exists in E as (v & Hv & Ht).
    rewrite (H v) in Ht by (apply list_elem_of_In, Hv). discriminate.
Qed.

Lemma check_available_vals_cases (values : list pyval) (expected : list nat) :
  match _check_available_vals values expected with
  | Ok b =>
      Forall (λ i, i < length values) expected
      ∧ (b = true ↔
           ∀ i v, values !! i = Some v → (truthy v = true ↔ i ∈ expected))
  | Raise e =>
      e = AssertionError "invalid expected_values"
      ∧ ∃ i, i ∈ expected ∧ length values ≤ i
  end.
Proof.
  unfold _check_available_vals.
  destruct (forallb _ expected) eqn:Hrange.
  - assert (Hin : Forall (λ i, i < length values) expected).
    { apply Forall_forall. intros i Hi.
      rewrite forallb_forall in Hrange.
      specialize (Hrange i (proj1 (list_elem_of_In _ _) Hi)).
      apply bool_decide_eq_true in Hrange.
      apply elem_of_seq in Hrange. lia. }
    split; [exact Hin|].
    rewrite andb_true_iff, negb_true_iff, py_all_spec, py_any_spec.
    split.
    + intros [Hall Hnone] i v Hv. split.
      * intros Ht. destruct (decide (i ∈ expected)) as [|Hni]; [assumption|].
        rewrite (Hnone v) in Ht; [discriminate|].
        unfold at_indices. apply list_elem_of_omap. exists i. split; [|exact Hv].
        apply list_elem_of_filter. split; [exact Hni|].
        apply elem_of_seq. apply lookup_lt_Some in Hv. lia.
      * intros Hi. apply Hall. unfold at_indices. apply list_elem_of_omap.
        exists i. auto.
    + intros H. split.
      * intros v Hv. unfold at_indices in Hv.
        apply list_elem_of_omap in Hv as (i & Hi & Hv).
        apply (H i v Hv), Hi.
      * intros v Hv. unfold at_indices in Hv.
        apply list_elem_of_omap in Hv as (i & Hi & Hv).
        apply list_elem_of_filter in Hi as [Hni _].
        destruct (truthy v) eqn:E; [|reflexivity].
        exfalso. apply Hni. apply (H i v Hv), E.
  - split; [reflexivity|].
    apply not_true_iff_false in Hrange.
    rewrite forallb_forall in Hrange.
    destruct (decide (Forall (λ i, i < length values) expected)) as [Hall|Hno].
    + exfalso. apply Hrange. intros i Hi. apply bool_decide_eq_true.
      apply elem_of_seq. rewrite Forall_forall in Hall.
      specialize (Hall i (proj2 (list_elem_of_In _ _) Hi)). lia.
    + apply not_Forall_Exists in Hno; [|intros i; apply _].
      apply Exists_exists in Hno as (i & Hi & Hlt). exists i.
      split; [exact Hi|simpl in Hlt; lia].
Qed.

(** X1: [_check_available_vals] fails its assertion exactly when an expected
    index is out of range; otherwise it tells whether the truthy
    positions of [values] are exactly the expected ones. *)
Theorem check_available_vals_spec (values : list pyval) (expected : list nat) :
  match _check_available_vals values expected with
  | Ok b =>
      Forall (λ i, i < length values) expected
      ∧ (b = true ↔
           ∀ i v, values !! i = Some v → (truthy v = true ↔ i ∈ expected))
  | Raise e =>
      e = AssertionError "invalid expected_values"
      ∧ ∃ i, i ∈ expected ∧ length values ≤ i
  end.
Proof. apply check_available_vals_cases. Qed.

Lemma fits_spec (dpres : list pyval) (p : list nat) :
  fits dpres p = true →
  ∀ i v, dpres !! i = Some v → (truthy v = true ↔ i ∈ p).
Proof.
  unfold fits. pose proof (check_available_vals_cases dpres p) as H.
  destruct (_check_available_vals dpres p) as [b|e]; [|discriminate].
  intros ->. apply H. reflexivity.
Qed.

Lemma fits_in_range (dpres : list pyval) (p : list nat) :
  fits dpres p = true → Forall (λ i, i < length dpres) p.
Proof.
  unfold fits. pose proof (check_available_vals_cases dpres p) as H.
  destruct (_check_available_vals dpres p) as [b|e]; [|discriminate].
  intros _. apply H.
Qed.

Lemma fits_same_indices (dpres : list pyval) (p q : list nat) :
  fits dpres p = true → fits dpres q = true → same_indices p q = true.
Proof.
  intros Hp Hq.
  assert (Hsub : ∀ p q, fits dpres p = true → fits dpres q = true →
                 forallb (λ i, bool_decide (i ∈ q)) p = true).
  { clear. intros p q Hp Hq. apply forallb_forall. intros i Hi.
    apply list_elem_of_In in Hi. apply bool_decide_eq_true.
    pose proof (fits_in_range _ _ Hp) as Hr. rewrite Forall_forall in Hr.
    destruct (lookup_lt_is_Some_2 dpres i (Hr i Hi)) as [v Hv].
    apply (fits_spec _ _ Hq i v Hv), (fits_spec _ _ Hp i v Hv), Hi. }
  unfold same_indices. rewrite (Hsub p q Hp Hq), (Hsub q p Hq Hp). reflexivity.
Qed.

(** X2: at most one of the ten patterns fits a list of fields: the order in
    which [_dp_constraint] tries them does not matter. *)
Theorem dp_patterns_exclusive (dpres : list pyval) (p q : list nat) :
  p ∈ dp_patterns → q ∈ dp_patterns →
  fits dpres p = true → fits dpres q = true → p = q.
Proof.
  intros Hp Hq Hfp Hfq. pose proof (fits_same_indices _ _ _ Hfp Hfq) as H.
  unfold dp_patterns in Hp, Hq.
  repeat (apply elem_of_cons in Hp as [->|Hp]);
    try (by inversion Hp);
    repeat (apply elem_of_cons in Hq as [->|Hq]);
    try (by inversion Hq);
    first [reflexivity | (vm_compute in H; discriminate H)].
Qed.

Lemma dp_patterns_exclusive_witness :
  [0; 2; 5] = [0; 2; 5].
Proof.
  apply (dp_patterns_exclusive
           [PStr "float"; PNone; PInt 1; PNone; PNone; PInt 10]);
    compute_done.
Defined.

Lemma dp_constraint_half_open_witness :
  let dpres := [PStr "float"; PNone; PInt 1; PNone; PNone; PInt 10] in
  let d := facets Tfloat None (Some (PInt 1)) None (Some (PInt 10)) in
  _dp_constraint dpres (fresh_editor empty_ontology)
  = (Ok (Some d), fresh_editor empty_ontology)
  ∧ ∀ x : Q, admits d x = true ↔ (inject_Z 1 <= x)%Q ∧ (x < inject_Z 10)%Q.
Proof.
  apply (dp_constraint_half_open (fresh_editor empty_ontology) 1 10); lia.
Defined.

(** ** What the methods leave alone *)

Global Instance log_only_preorder : PreOrder log_only.
Proof.
  split.
  - intros s. repeat split.
  - intros a b c (?&?&?&?&?&?) (?&?&?&?&?&?). repeat split; congruence.
Qed.

Global Instance same_disk_preorder : PreOrder same_disk.
Proof.
  split.
  - intros s. repeat split.
  - intros a b c (?&?) (?&?). split; congruence.
Qed.

Lemma keeps_weaken {A} (R R' : relation editor) (m : M A) :
  (∀ s s', R s s' → R' s s') → keeps R m → keeps R' m.
Proof. intros H Hm s. apply H, Hm. Qed.

Lemma log_only_same_disk (s s' : editor) : log_only s s' → same_disk s s'.
Proof. intros (_ & Hf & Hs & _). split; assumption. Qed.

Lemma keeps_logger_log_only (l : level) (m : string) (a : logarg) :
  keeps log_only (logger l m a).
Proof. intros s. repeat split. Qed.

Lemma keeps_logger_same_disk (l : level) (m : string) (a : logarg) :
  keeps same_disk (logger l m a).
Proof. intros s. repeat split. Qed.

Lemma keeps_get_onto (R : relation editor) `{!Reflexive R} : keeps R get_onto.
Proof. intros s. simpl. reflexivity. Qed.

Lemma keeps_put_onto (o : ontology) : keeps same_disk (put_onto o).
Proof. intros s. repeat split. Qed.

(** One step of a frame proof: take the computation apart along its
    binds and its case distinctions. *)
Ltac frame_step :=
  first
    [ apply keeps_ret; apply _
    | apply keeps_raise; apply _
    | apply keeps_lift; apply _
    | apply keeps_get_onto; apply _
    | apply keeps_logger_log_only
    | apply keeps_logger_same_disk
    | apply keeps_put_onto
    | apply keeps_bind; [apply _| |intros ?]
    | match goal with
      | |- keeps _ (if ?c then _ else _) => destruct c
      | |- keeps _ (match ?x with _ => _ end) => destruct x
      end ].

Ltac frame := repeat frame_step.

Section Frames.

Context `{RT : PyRuntime} `{RS : Reasoner}.

(** X4: [_dp_constraint] writes to the log and touches nothing else. *)
Theorem dp_constraint_log_only (dpres : list pyval) :
  keeps log_only (_dp_constraint dpres).
Proof. unfold _dp_constraint. cbv zeta. frame. Qed.

End Frames.

Section Frames2.

Context `{RT : PyRuntime} `{RS : Reasoner}.

Lemma dp_constraint_keeps_disk (dpres : list pyval) :
  keeps same_disk (_dp_constraint dpres).
Proof. unfold _dp_constraint. cbv zeta. frame. Qed.

Lemma lookup_keeps_disk (name : pyval) : keeps same_disk (lookup name).
Proof. unfold lookup. frame. Qed.

Lemma append_keeps_disk (l : axlist) (c : construct) :
  keeps same_disk (append l c).
Proof. unfold append. frame. Qed.

Lemma new_class_keeps_disk (name : pyval) (base : option entity) :
  keeps same_disk (new_class name base).
Proof.
  unfold new_class.
  destruct name; try apply keeps_raise, _.
  destruct base as [b|]; try apply keeps_raise, _.
  destruct b; try apply keeps_raise, _;
    (apply keeps_bind; [apply _|apply keeps_get_onto, _|intros o];
     destruct (entities o !! s);
     repeat first [apply append_keeps_disk | frame_step]).
Qed.

Lemma add_restr_to_def_keeps_disk (current_axioms : axlist) (ri : resinfo)
    (opinfo : list (option entity)) (dpinfo axiom : list pyval) :
  keeps same_disk (_add_restr_to_def current_axioms ri opinfo dpinfo axiom).
Proof.
  unfold _add_restr_to_def. cbv zeta.
  repeat first [apply append_keeps_disk | apply dp_constraint_keeps_disk
               | frame_step].
Qed.

Lemma add_axioms_body_keeps_disk (my_class : option string)
    (axiom : list pyval) :
  keeps same_disk (add_axioms_body my_class axiom).
Proof.
  unfold add_axioms_body. cbv zeta.
  repeat first [apply append_keeps_disk | apply lookup_keeps_disk
               | apply new_class_keeps_disk
               | apply add_restr_to_def_keeps_disk | frame_step].
Qed.

Lemma add_axioms_loop_keeps_disk (axiom_tuples : list (list pyval))
    (my_class : option string) :
  keeps same_disk (add_axioms_loop my_class axiom_tuples).
Proof.
  revert my_class. induction axiom_tuples as [|axiom rest IH]; intros my_class.
  - apply keeps_ret, _.
  - simpl. apply keeps_bind; [apply _|apply add_axioms_body_keeps_disk|].
    intros mc. apply IH.
Qed.

(** X5: [add_axioms] writes the file once, after the last spec of a batch
    that raised nothing, and then the file holds the ontology in memory;
    a batch that raises leaves the file as it was. *)
Theorem add_axioms_saves_once (axiom_tuples : list (list pyval))
    (st : editor) :
  let out := add_axioms axiom_tuples st in
  match out.1 with
  | Ok _ => saves out.2 = S (saves st) ∧ file out.2 = onto out.2
  | Raise _ => saves out.2 = saves st ∧ file out.2 = file st
  end.
Proof.
  cbv zeta. unfold add_axioms, mbind, M_bind, bind.
  pose proof (add_axioms_loop_keeps_disk axiom_tuples None st) as [Hf Hs].
  destruct (add_axioms_loop None axiom_tuples st) as [[[]|e] st1]; simpl in *.
  - split; [congruence|reflexivity].
  - split; assumption.
Qed.

End Frames2.

(** ** More on the prompt and the reasoner orchestration *)

Section Prompt2.

Lemma ask_again_all_invalid (lines : list string) (first : string)
    (st : editor) :
  Forall (λ l, l ∉ choices) (first :: lines) →
  ∃ st', ask_again lines first st = (Raise EOFError, st')
    ∧ stdout st' = stdout st ++ replicate (S (length lines)) invalid_line
    ∧ (stdin st = lines → stdin st' = [])
    ∧ onto st' = onto st ∧ file st' = file st ∧ saves st' = saves st.
Proof.
  revert first st. induction lines as [|l lines IH]; intros first st Hinv;
    apply Forall_cons in Hinv as [Hf Hinv].
  - rewrite (ask_again_eof _ _ Hf). eexists. split; [reflexivity|].
    repeat split. intros H. exact H.
  - rewrite (ask_again_invalid _ _ _ _ Hf).
    destruct (IH l (with_stdin lines (with_stdout invalid_line st)) Hinv)
      as (st' & -> & Hout & Hin & Ho & Hfl & Hs).
    eexists. split; [reflexivity|]. rewrite Hout. simpl.
    rewrite <- app_assoc. repeat split; try assumption.
    intros _. apply Hin. reflexivity.
Qed.

(** X11: when the console ends before a line is accepted, the prompt raises
    [EOFError], having answered each line it read. *)
Theorem bool_user_interaction_eof (question : string) (info : option string)
    (st : editor) :
  Forall (λ l, l ∉ choices) (stdin st) →
  ∃ st', _bool_user_interaction question info st = (Raise EOFError, st')
    ∧ stdin st' = []
    ∧ stdout st' = stdout st ++ banner question info
                     ++ replicate (length (stdin st)) invalid_line
    ∧ onto st' = onto st ∧ file st' = file st ∧ saves st' = saves st.
Proof.
  intros Hinv.
  set (st1 := match info with
              | Some i => if String.eqb i "" then st else with_stdout i st
              | None => st
              end).
  assert (E1 : match info with
               | Some i => if String.eqb i "" then ret tt else print i
               | None => ret tt
               end st = (Ok tt, st1)).
  { unfold st1. destruct info as [i|]; [destruct (String.eqb i "")|];
      reflexivity. }
  assert (Hst1 : stdin st1 = stdin st
                 ∧ stdout st1 ++ [question +:+ " [y(es), n(o), q(uit)]"]
                   = stdout st ++ banner question info
                 ∧ onto st1 = onto st ∧ file st1 = file st
                 ∧ saves st1 = saves st).
  { unfold st1, banner. destruct info as [i|]; [destruct (String.eqb i "")|];
      simpl; rewrite <- ?app_assoc; repeat split; assumption. }
  destruct Hst1 as (Hin1 & Hout1 & Ho1 & Hf1 & Hs1).
  unfold _bool_user_interaction, mbind, M_bind, bind.
  rewrite E1. unfold print at 1, input. simpl stdin. rewrite Hin1.
  destruct (stdin st) as [|first lines] eqn:Hstdin.
  - eexists. split; [reflexivity|]. simpl. rewrite Hin1, Hout1, app_nil_r.
    repeat split; assumption.
  - simpl stdin.
    destruct (ask_again_all_invalid lines first
                (with_stdin lines
                   (with_stdout (question +:+ " [y(es), n(o), q(uit)]") st1))
                Hinv)
      as (st' & -> & Hout & Hin & Ho & Hfl & Hs).
    eexists. split; [reflexivity|].
    split; [apply Hin; reflexivity|].
    split; [|simpl in Ho, Hfl, Hs; repeat split; congruence].
    rewrite Hout. simpl stdout. rewrite Hout1, <- app_assoc. reflexivity.
Qed.

End Prompt2.

Section Reasoning2.

Context `{RT : PyRuntime} `{RS : Reasoner}.

Lemma run_reasoner_runs (reasoner : string) (debug : bool) (f : ontology)
    (s : editor) :
  ∃ rs, reasoner_runs (run_reasoner reasoner debug f s).2
        = reasoner_runs s ++ rs ∧ length rs ≤ 1.
Proof.
  fold (ran reasoner debug f s).
  destruct (run_reasoner_spec reasoner debug f s)
    as (o & _ & _ & _ & _ & [(_ & _ & H)|[(_ & _ & H)|(_ & _ & H)]]).
  - eexists. split; [exact H|simpl; lia].
  - eexists. split; [exact H|simpl; lia].
  - exists []. rewrite H, app_nil_r. split; [reflexivity|simpl; lia].
Qed.

(** X7: for every input two levels of calls are enough: more give the same
    result, the only exception that can come out is the [IndexError] of
    [_analyze_pellet_results], and at most two reasoner runs are made. *)
Theorem reasoning_terminates (fuel : nat) (reasoner : string)
    (save debug : bool) (st : editor) :
  let out := reasoning (S (S fuel)) reasoner save debug st in
  out = reasoning 2 reasoner save debug st
  ∧ (∀ e, out.1 = Raise e → e = IndexError)
  ∧ ∃ rs, reasoner_runs out.2 = reasoner_runs st ++ rs ∧ length rs ≤ 2.
Proof.
  cbv zeta. split; [apply reasoning_depth|]. split; [apply reasoning_raises|].
  rewrite reasoning_unfold. cbv zeta.
  pose proof (proj1 (proj2 (checked_fields reasoner st))) as Hc.
  destruct (run_reasoner_runs reasoner debug (file (checked reasoner st))
              (checked reasoner st)) as (rs & Hrs & Hlen).
  rewrite Hc in Hrs.
  destruct (run_reasoner reasoner debug (file (checked reasoner st))
              (checked reasoner st)) as [[[inf|exc tb]|e] st2]; simpl in Hrs.
  - exists rs. rewrite (proj1 (conclude_fields _ _ _ _)).
    split; [exact Hrs|lia].
  - unfold handle_crash. destruct (String.eqb reasoner "pellet" && debug).
    + pose proof (proj2 (analyze_keeps exc tb) st2) as Ha.
      destruct (_analyze_pellet_results exc tb st2) as [[found|e] st3];
        simpl in Ha; exists rs.
      * rewrite (proj1 (conclude_fields _ _ _ _)), Ha.
        split; [exact Hrs|lia].
      * simpl. rewrite Ha. split; [exact Hrs|lia].
    + pose proof (reasoning_explainable_runs fuel false st2) as Hin.
      destruct (reasoning (S fuel) "pellet" false true st2)
        as [[found|e] st3]; simpl in Hin; exists (rs ++ [("pellet", 2)]).
      * rewrite (proj1 (conclude_fields _ _ _ _)), Hin, Hrs, app_assoc.
        split; [reflexivity|]. rewrite length_app. simpl. lia.
      * simpl. rewrite Hin, Hrs, app_assoc.
        split; [reflexivity|]. rewrite length_app. simpl. lia.
  - exists rs. simpl. split; [exact Hrs|lia].
Qed.

(** X8: a reasoner name other than hermit and pellet is answered with a
    warning only: no reasoner runs, and the report is read off the copy
    of the file as it was loaded. *)
Theorem reasoning_unknown_reasoner (fuel : nat) (reasoner : string)
    (debug : bool) (st : editor) :
  reasoner ∉ ["hermit"; "pellet"] →
  let out := reasoning (S fuel) reasoner false debug st in
  out.1 = Ok (without_Nothing (inconsistent_classes (file st)))
  ∧ reasoner_runs out.2 = reasoner_runs st
  ∧ log out.2
    = log st ++ unexpected_reasoner_warning reasoner
        :: match inconsistent_classes (file st) with
           | [] => []
           | found => [inconsistency_warning found]
           end.
Proof.
  intros Hr. cbv zeta. rewrite reasoning_unfold.
  unfold checked, _check_reasoner. rewrite (bool_decide_eq_false_2 _ Hr).
  assert (Hh : String.eqb reasoner "hermit" = false).
  { apply String.eqb_neq. intros ->. apply Hr. left. }
  assert (Hp : String.eqb reasoner "pellet" = false).
  { apply String.eqb_neq. intros ->. apply Hr. right. left. }
  unfold run_reasoner. rewrite Hh, Hp. simpl.
  destruct (inconsistent_classes (file st)) as [|c found]; simpl;
    rewrite <- ?app_assoc; repeat split.
Qed.

(** X9: with [save=True], on an ontology the reasoner finds consistent, the
    inferred copy is written to the file, once. *)
Theorem reasoning_save_persists (fuel : nat) (reasoner : string)
    (debug : bool) (st : editor) (inf : ontology) :
  (run_reasoner reasoner debug (file st) st).1 = Ok (Inferred inf) →
  inconsistent_classes inf = [] →
  let out := reasoning (S fuel) reasoner true debug st in
  out.1 = Ok [] ∧ file out.2 = inf ∧ saves out.2 = S (saves st).
Proof.
  intros Hrun Hinf. cbv zeta. rewrite reasoning_unfold. cbv zeta.
  pose proof (proj1 (checked_fields reasoner st)) as (_ & Hfile & Hsaves).
  rewrite Hfile.
  rewrite (run_reasoner_result _ _ _ _ (checked reasoner st)) in Hrun.
  pose proof (proj1 (run_reasoner_fields reasoner debug (file st)
                       (checked reasoner st))) as (_ & _ & Hs2).
  destruct (run_reasoner reasoner debug (file st) (checked reasoner st))
    as [r st2].
  simpl in Hrun, Hs2. subst r. rewrite Hinf, conclude_empty. simpl.
  repeat split. congruence.
Qed.

(** X10: when the reasoner lists inconsistent classes, nothing is saved
    even with [save=True]: the list is logged as the reasoner gave it
    and returned without [Nothing]. *)
Theorem reasoning_inconsistent_not_saved (fuel : nat) (reasoner : string)
    (save debug : bool) (st : editor) (inf : ontology) :
  (run_reasoner reasoner debug (file st) st).1 = Ok (Inferred inf) →
  inconsistent_classes inf ≠ [] →
  let out := reasoning (S fuel) reasoner save debug st in
  out.1 = Ok (without_Nothing (inconsistent_classes inf))
  ∧ same_store st out.2
  ∧ last (log out.2) = Some (inconsistency_warning (inconsistent_classes inf)).
Proof.
  intros Hrun Hinf. cbv zeta. rewrite reasoning_unfold. cbv zeta.
  pose proof (proj1 (checked_fields reasoner st)) as H1.
  pose proof H1 as (_ & Hfile & _). rewrite Hfile.
  rewrite (run_reasoner_result _ _ _ _ (checked reasoner st)) in Hrun.
  pose proof (proj1 (run_reasoner_fields reasoner debug (file st)
                       (checked reasoner st))) as H2.
  destruct (run_reasoner reasoner debug (file st) (checked reasoner st))
    as [r st2].
  simpl in Hrun, H2. subst r.
  destruct (inconsistent_classes inf) as [|c found] eqn:E; [congruence|].
  split; [reflexivity|]. split.
  - etrans; [exact H1|]. etrans; [exact H2|]. repeat split.
  - simpl. apply last_snoc.
Qed.

End Reasoning2.

Lemma reasoning_unknown_reasoner_witness :
  let out := reasoning (RT := sample_runtime) (RS := quiet_reasoner)
               1 "fact++" false false (fresh_editor vehicles) in
  out.1 = Ok []
  ∧ reasoner_runs out.2 = []
  ∧ log out.2 = [unexpected_reasoner_warning "fact++"].
Proof.
  apply (reasoning_unknown_reasoner
           (RT := sample_runtime) (RS := quiet_reasoner)
           0 "fact++" false (fresh_editor vehicles)).
  compute_done.
Defined.

Lemma reasoning_save_persists_witness :
  let out := reasoning (RT := sample_runtime) (RS := quiet_reasoner)
               1 "pellet" true false (fresh_editor vehicles) in
  out.1 = Ok [] ∧ file out.2 = vehicles ∧ saves out.2 = 1.
Proof.
  apply (reasoning_save_persists
           (RT := sample_runtime) (RS := quiet_reasoner)
           0 "pellet" false (fresh_editor vehicles) vehicles);
    reflexivity.
Defined.

Lemma reasoning_inconsistent_not_saved_witness :
  let found := [NamedClass "Foo"; Nothing] in
  let out := reasoning (RT := sample_runtime) (RS := finding_reasoner found)
               1 "hermit" true false (fresh_editor vehicles) in
  out.1 = Ok [NamedClass "Foo"]
  ∧ same_store (fresh_editor vehicles) out.2
  ∧ last (log out.2) = Some (inconsistency_warning found).
Proof.
  apply (reasoning_inconsistent_not_saved
           (RT := sample_runtime)
           (RS := finding_reasoner [NamedClass "Foo"; Nothing])
           0 "hermit" true false (fresh_editor vehicles) vehicles);
    [reflexivity|discriminate].
Defined.

Lemma bool_user_interaction_eof_witness :
  ∃ st', _bool_user_interaction "Show further information?" None
           (with_stdin ["yes"; "no"] (fresh_editor vehicles))
         = (Raise EOFError, st')
    ∧ stdin st' = []
    ∧ stdout st' = ["Show further information? [y(es), n(o), q(uit)]";
                    invalid_line; invalid_line]
    ∧ onto st' = vehicles ∧ file st' = vehicles ∧ saves st' = 0.
Proof.
  apply (bool_user_interaction_eof "Show further information?" None
           (with_stdin ["yes"; "no"] (fresh_editor vehicles))).
  compute_done.
Defined.

(** ** Reading and removing restrictions *)

Section Removal.

Context `{RT : PyRuntime} `{RS : Reasoner}.

Lemma remove_restr_loop_skip (prop : option entity) (x : construct)
    (rs acc : list construct) :
  (∀ r, r ∈ rs → on_property prop r = true → x ≠ r) →
  remove_restr_loop prop rs (x :: acc) =
    rbind (remove_restr_loop prop rs acc) (λ kept, Ok (x :: kept)).
Proof.
  revert acc. induction rs as [|r rs IH]; intros acc Hne; [reflexivity|].
  simpl. destruct (on_property prop r) eqn:Hon.
  - destruct (decide (x = r)) as [->|Hxr].
    + exfalso. apply (Hne r); [left|exact Hon|reflexivity].
    + destruct (remove_first r acc) as [kept|e]; simpl; [|reflexivity].
      apply IH. intros r' Hr'. apply Hne. right. exact Hr'.
  - apply IH. intros r' Hr'. apply Hne. right. exact Hr'.
Qed.

Lemma remove_restr_loop_filter (prop : option entity) (l : list construct) :
  remove_restr_loop prop (filter (λ r, is_restriction r = true) l) l
  = Ok (filter (λ c, removed prop c = false) l).
Proof.
  induction l as [|x l IH]; [reflexivity|].
  destruct (is_restriction x) eqn:Hx.
  - rewrite filter_cons_True by exact Hx. simpl.
    destruct (on_property prop x) eqn:Hon.
    + destruct (decide (x = x)) as [_|]; [|congruence]. simpl.
      rewrite filter_cons_False
        by (unfold removed; rewrite Hx, Hon; discriminate).
      exact IH.
    + rewrite remove_restr_loop_skip, IH; simpl.
      * rewrite filter_cons_True by (unfold removed; rewrite Hx, Hon; reflexivity).
        reflexivity.
      * intros r _ Hr ->. congruence.
  - rewrite filter_cons_False by (rewrite Hx; discriminate).
    rewrite remove_restr_loop_skip, IH; simpl.
    + rewrite filter_cons_True by (unfold removed; rewrite Hx; reflexivity).
      reflexivity.
    + intros r Hr _ ->. apply list_elem_of_filter in Hr as [Hr _]. congruence.
Qed.

(** X12: [_remove_restr_from_class_def] never fails to find what it removes,
    and leaves the list without its restrictions (those on [prop], when
    a property is given), the other members in their order. *)
Theorem remove_restr_from_class_def_spec (cls_restrictions : list construct)
    (prop : option entity) :
  _remove_restr_from_class_def cls_restrictions prop
  = Ok (filter (λ c, removed prop c = false) cls_restrictions).
Proof. apply remove_restr_loop_filter. Qed.

(** *** The axiom lists of the ontology *)

Lemma axioms_of_set_same (o : ontology) (r : rel) (n : string)
    (l : list construct) :
  axioms_of (set_axioms o r n l) r n = l.
Proof. destruct r; unfold axioms_of; simpl; rewrite lookup_insert_eq; reflexivity. Qed.

Lemma axioms_of_set_other (o : ontology) (r r' : rel) (n n' : string)
    (l : list construct) :
  (r, n) ≠ (r', n') →
  axioms_of (set_axioms o r n l) r' n' = axioms_of o r' n'.
Proof.
  intros H. destruct r, r'; unfold axioms_of; simpl; try reflexivity;
    rewrite lookup_insert_ne; try reflexivity; intros ->; apply H; reflexivity.
Qed.

Lemma entities_set_axioms (o : ontology) (r : rel) (n : string)
    (l : list construct) :
  entities (set_axioms o r n l) = entities o.
Proof. destruct r; reflexivity. Qed.

Lemma axioms_ref_spec (class_name : pyval) (r : rel) (st : editor) :
  axioms_ref class_name r st =
    match onto_lookup (onto st) class_name with
    | Some _ => (Ok (text_of class_name, r), st)
    | None => (Raise AttributeError, st)
    end.
Proof.
  unfold axioms_ref, lookup, mbind, M_bind, bind, get_onto, ret.
  destruct (onto_lookup (onto st) class_name); reflexivity.
Qed.

Lemma remove_restr_in_spec (l : axlist) (prop : option entity) (st : editor) :
  remove_restr_in l prop st =
    (Ok tt,
     with_onto (set_axioms (onto st) l.2 l.1
                  (filter (λ c, removed prop c = false)
                     (axioms_of (onto st) l.2 l.1))) st).
Proof.
  unfold remove_restr_in, mbind, M_bind, bind, get_onto, lift. simpl.
  unfold _remove_restr_from_class_def. rewrite remove_restr_loop_filter.
  reflexivity.
Qed.

(** X15: a restriction appended to an axiom list is taken out again by the
    removal, a negated one is not: [Not] is not a [Restriction]. *)
Theorem append_then_remove (l : axlist) (c : construct) (st : editor) :
  ∃ st', (append l c ≫= λ _, remove_restr_in l None) st = (Ok tt, st')
    ∧ axioms_of (onto st') l.2 l.1
      = filter (λ x, is_restriction x = false) (axioms_of (onto st) l.2 l.1)
          ++ (if is_restriction c then [] else [c]).
Proof.
  unfold mbind, M_bind, bind, append, get_onto, put_onto. simpl.
  rewrite remove_restr_in_spec. eexists. split; [reflexivity|].
  simpl. rewrite !axioms_of_set_same.
  rewrite filter_app. f_equal.
  - apply list_filter_iff. intros x. unfold removed.
    destruct (is_restriction x); simpl; split; congruence.
  - unfold removed. destruct (is_restriction c) eqn:E.
    + rewrite filter_cons_False by (rewrite E; simpl; congruence). reflexivity.
    + rewrite filter_cons_True by (rewrite E; reflexivity). reflexivity.
Qed.

Lemma remove_restrictions_on_class_run (class_name : pyval) (st : editor) :
  let out := remove_restrictions_on_class class_name st in
  match onto_lookup (onto st) class_name with
  | Some _ =>
      out.1 = Ok tt
      ∧ (∀ r n,
           axioms_of (onto out.2) r n =
             if bool_decide (n = text_of class_name)
             then filter (λ x, is_restriction x = false)
                    (axioms_of (onto st) r n)
             else axioms_of (onto st) r n)
      ∧ entities (onto out.2) = entities (onto st)
      ∧ file out.2 = onto out.2
      ∧ saves out.2 = S (saves st)
  | None => out = (Raise AttributeError, st)
  end.
Proof.
  cbv zeta. unfold remove_restrictions_on_class, mbind, M_bind, bind.
  rewrite axioms_ref_spec.
  destruct (onto_lookup (onto st) class_name) as [e|] eqn:E; [|reflexivity].
  rewrite axioms_ref_spec, E. rewrite remove_restr_in_spec.
  rewrite remove_restr_in_spec. unfold save_onto.
  cbn [fst snd onto saves file with_onto with_file].
  split; [reflexivity|]. split; [|repeat split; rewrite ?entities_set_axioms;
                                  reflexivity].
  assert (Hf : ∀ l : list construct,
            filter (λ c, removed None c = false) l
            = filter (λ x, is_restriction x = false) l).
  { intros l. apply list_filter_iff. intros x. unfold removed.
    destruct (is_restriction x); simpl; split; congruence. }
  intros r n. rewrite !Hf. case_bool_decide as Hn.
  - subst n. destruct r.
    + rewrite axioms_of_set_other by congruence. apply axioms_of_set_same.
    + rewrite axioms_of_set_same.
      rewrite axioms_of_set_other by congruence. reflexivity.
  - rewrite !axioms_of_set_other by congruence. reflexivity.
Qed.

(** X13: [remove_restrictions_on_class] on a name the ontology knows: both
    axiom lists of the class lose their restrictions and keep the rest
    in order, the lists of the other classes and the entities stay, and
    the file is written once.  On an unknown name it raises
    [AttributeError] and writes nothing. *)
Theorem remove_restrictions_on_class_spec (class_name : pyval) (st : editor) :
  let out := remove_restrictions_on_class class_name st in
  match onto_lookup (onto st) class_name with
  | Some _ =>
      out.1 = Ok tt
      ∧ (∀ r n,
           axioms_of (onto out.2) r n =
             if bool_decide (n = text_of class_name)
             then filter (λ x, is_restriction x = false)
                    (axioms_of (onto st) r n)
             else axioms_of (onto st) r n)
      ∧ entities (onto out.2) = entities (onto st)
      ∧ file out.2 = onto out.2
      ∧ saves out.2 = S (saves st)
  | None => out = (Raise AttributeError, st)
  end.
Proof. apply remove_restrictions_on_class_run. Qed.

(** X14: after [remove_restrictions_on_class], [get_class_restrictions] finds
    no restriction on the class, in either list. *)
Theorem no_restrictions_after_removal (class_name : pyval) (st : editor)
    (res_type : string) :
  is_Some (onto_lookup (onto st) class_name) →
  res_type ∈ ["is_a"; "equivalent_to"] →
  (remove_restrictions_on_class class_name
     ≫= λ _, get_class_restrictions class_name (PBool true) (PStr res_type))
    st
  = (Ok [], (remove_restrictions_on_class class_name st).2).
Proof.
  intros [e He] Hres.
  pose proof (remove_restrictions_on_class_run class_name st) as H.
  cbv zeta in H. rewrite He in H. destruct H as (Hok & Hax & Hent & _).
  unfold mbind at 1, M_bind at 1, bind at 1.
  destruct (remove_restrictions_on_class class_name st) as [r st'].
  simpl in *. subst r.
  assert (Hlook : onto_lookup (onto st') class_name = Some e).
  { unfold onto_lookup in *. rewrite Hent. exact He. }
  assert (Hnone : ∀ r,
            filter (λ x, is_restriction x = true)
              (axioms_of (onto st') r (text_of class_name)) = []).
  { intros r. rewrite Hax, bool_decide_eq_true_2 by reflexivity.
    induction (axioms_of (onto st) r (text_of class_name)) as [|x l IH];
      [reflexivity|].
    destruct (is_restriction x) eqn:Ex.
    - rewrite filter_cons_False by (rewrite Ex; discriminate). exact IH.
    - rewrite filter_cons_True by exact Ex.
      rewrite filter_cons_False by (rewrite Ex; discriminate). exact IH. }
  unfold get_class_restrictions, axioms_ref, lookup, mbind, M_bind, bind,
    get_onto, ret.
  apply elem_of_cons in Hres as [->|Hres];
    [|apply list_elem_of_singleton in Hres as ->]; simpl;
    rewrite Hlook; simpl; rewrite Hnone; reflexivity.
Qed.

End Removal.

Section Brackets.

Lemma string_eq_chars (a b : string) :
  String.list_ascii_of_string a = String.list_ascii_of_string b → a = b.
Proof.
  intros H. rewrite <- (String.string_of_list_ascii_of_string a),
    <- (String.string_of_list_ascii_of_string b), H. reflexivity.
Qed.

Lemma remove_char_chars (c : ascii) (s : string) :
  String.list_ascii_of_string (Str.remove_char c s)
  = filter (λ a, a ≠ c) (String.list_ascii_of_string s).
Proof.
  induction s as [|a s IH]; [reflexivity|]. simpl.
  destruct (Ascii.eqb a c) eqn:E.
  - apply Ascii.eqb_eq in E. subst a.
    rewrite filter_cons_False by (intros H; apply H; reflexivity). exact IH.
  - apply Ascii.eqb_neq in E. rewrite filter_cons_True by exact E.
    simpl. rewrite IH. reflexivity.
Qed.

(** X16: [_remove_nt_brackets] keeps the number of fields and, in each, the
    characters that are not angle brackets, in their order; applied
    again it changes nothing. *)
Theorem remove_nt_brackets_spec (triple : list string) :
  length (_remove_nt_brackets triple) = length triple
  ∧ (∀ i s, triple !! i = Some s →
       ∃ s', _remove_nt_brackets triple !! i = Some s'
             ∧ String.list_ascii_of_string s' = without_brackets s)
  ∧ _remove_nt_brackets (_remove_nt_brackets triple)
    = _remove_nt_brackets triple.
Proof.
  assert (Hchars : ∀ s,
            String.list_ascii_of_string (Str.remove_char ">" (Str.remove_char "<" s))
            = without_brackets s).
  { intros s. rewrite !remove_char_chars. unfold without_brackets.
    rewrite list_filter_filter. apply list_filter_iff. intros a. tauto. }
  unfold _remove_nt_brackets. split; [apply length_fmap|]. split.
  - intros i s Hi. eexists. rewrite list_lookup_fmap, Hi. simpl.
    split; [reflexivity|apply Hchars].
  - rewrite <- list_fmap_compose. apply list_fmap_ext. intros i s _. simpl.
    apply string_eq_chars. rewrite !Hchars. unfold without_brackets at 1.
    rewrite Hchars. unfold without_brackets.
    rewrite list_filter_filter. apply list_filter_iff. intros a. tauto.
Qed.

End Brackets.

Lemma no_restrictions_after_removal_witness :
  let st := (add_axioms (RT := sample_runtime)
               [[PStr "Foo"; PNone; PStr "hasPart"; PNone; PStr "some"; PNone;
                 PStr "Bar"; PNone; PNone; PNone; PNone; PNone; PNone; PNone;
                 PNone]]
               (fresh_editor vehicles)).2 in
  (remove_restrictions_on_class (RT := sample_runtime) (PStr "Foo")
     ≫= λ _, get_class_restrictions (RT := sample_runtime)
               (PStr "Foo") (PBool true) (PStr "is_a")) st
  = (Ok [],
     (remove_restrictions_on_class (RT := sample_runtime) (PStr "Foo") st).2).
Proof.
  apply (no_restrictions_after_removal (RT := sample_runtime) (PStr "Foo"));
    [vm_compute; eexists; reflexivity|compute_done].
Defined.

(** The restriction that run removes. *)
Lemma restriction_added_then_removed :
  let st := (add_axioms (RT := sample_runtime)
               [[PStr "Foo"; PNone; PStr "hasPart"; PNone; PStr "some"; PNone;
                 PStr "Bar"; PNone; PNone; PNone; PNone; PNone; PNone; PNone;
                 PNone]]
               (fresh_editor vehicles)).2 in
  get_class_restrictions (RT := sample_runtime)
    (PStr "Foo") (PBool true) (PStr "is_a") st
  = (Ok [Restr {| property := Direct (ObjectProperty "hasPart");
                  rtype := PStr "some"; cardinality := None;
                  value := FillEntity (NamedClass "Bar") |}], st).
Proof. vm_compute. reflexivity. Qed.
